(** * StreamPoseML: the real-time windowed classification pipeline

    A shallow embedding of
      - [stream_pose_ml/ml_flow_client.py]  (class [MLFlowClient]) and
      - [pose_parser/api/app.py]            (class [PoserApp], the socket
        handler [handle_keypoints]),
    followed by the properties of the frame window, of the pipeline step
    and of the handler.

    Python objects are mutated in place and exceptions do not roll a
    mutation back, so every method is a state transformer that returns the
    new state together with either a value or the exception raised. *)

From stdpp Require Import base list strings gmap pretty.
From Stdlib Require Import ZArith Lia.

Open Scope string_scope.
Open Scope list_scope.
Open Scope nat_scope.

(** ** Python runtime: exceptions, values, truthiness *)

Inductive exn : Type :=
  | AttributeError (attr : string)
  | KeyError (key : string)
  | ValueError (msg : string)
  | ZeroDivisionError
  | RuntimeError (msg : string)
  | OverflowError (msg : string).

Inductive outcome (A : Type) : Type :=
  | Returns (a : A)
  | Raises (e : exn).
Arguments Returns {A} a.
Arguments Raises {A} e.

(** The values a prediction function or a method may hand back. *)
Inductive pyval : Type :=
  | PyNone
  | PyBool (b : bool)
  | PyInt (z : Z)
  | PyStr (s : string).

(** [bool(v)]: Python's truth value testing. *)
Definition py_bool (v : pyval) : bool :=
  match v with
  | PyNone => false
  | PyBool b => b
  | PyInt z => negb (z =? 0)%Z
  | PyStr s => negb (String.eqb s "")
  end.

(** [str(z)] for an integer, as an f-string renders it. *)
Definition py_str (z : Z) : string := pretty z.
Arguments py_str : simpl never.

(** ** A monad for state, exceptions and a trace

    A computation starts in a state and ends in a state ([final]), with
    the list of externally visible events it caused ([trace], oldest
    first) and with a value or an exception ([out]).  The state and the
    trace survive an exception. *)

Record result (E S A : Type) : Type := mkResult {
  final : S;
  trace : list E;
  out : outcome A
}.
Arguments mkResult {E S A} _ _ _.
Arguments final {E S A} _.
Arguments trace {E S A} _.
Arguments out {E S A} _.

Definition M (E S A : Type) : Type := S -> result E S A.

Definition ret {E S A} (a : A) : M E S A := fun s => mkResult s [] (Returns a).

Definition raise {E S A} (e : exn) : M E S A := fun s => mkResult s [] (Raises e).

Definition bind {E S A B} (m : M E S A) (k : A -> M E S B) : M E S B :=
  fun s =>
    match m s with
    | mkResult s1 t1 (Returns a) =>
        match k a s1 with
        | mkResult s2 t2 o => mkResult s2 (t1 ++ t2) o
        end
    | mkResult s1 t1 (Raises e) => mkResult s1 t1 (Raises e)
    end.

Definition modify {E S} (f : S -> S) : M E S unit :=
  fun s => mkResult (f s) [] (Returns tt).

Definition lift_outcome {E S A} (o : outcome A) : M E S A :=
  fun s => mkResult s [] o.

Definition record {E S} (e : E) : M E S unit :=
  fun s => mkResult s [e] (Returns tt).

Declare Scope py_scope.
Delimit Scope py_scope with py.
Notation "x <- m ;; k" := (bind m (fun x => k))
  (at level 100, m at next level, right associativity) : py_scope.
Notation "m ;;; k" := (bind m (fun _ => k))
  (at level 100, right associativity) : py_scope.
Open Scope py_scope.

(** A call to a collaborator: it is recorded, then it returns or raises. *)
Definition call {E S A} (e : E) (o : outcome A) : M E S A :=
  record e ;;; lift_outcome o.

(** Reading an attribute that holds [None] and using it as an object. *)
Definition attr {E S A} (name : string) (o : option A) : M E S A :=
  match o with
  | Some a => ret a
  | None => raise (AttributeError name)
  end.

(** ** [collections.deque] with a [maxlen] *)

Module deque.

Record t (A : Type) : Type := mk { items : list A; maxlen : nat }.
Arguments mk {A} items maxlen.
Arguments items {A} _.
Arguments maxlen {A} _.

(** [deque([], maxlen=n)] *)
Definition new {A} (n : nat) : t A := mk [] n.

(** [d.append(x)]: the element is added on the right, and when the deque
    is then longer than [maxlen] one element is discarded on the left. *)
Definition append {A} (x : A) (d : t A) : t A :=
  let l := items d ++ [x] in
  if decide (maxlen d < length l) then mk (drop 1 l) (maxlen d)
  else mk l (maxlen d).

(** [len(d)] *)
Definition len {A} (d : t A) : Z := Z.of_nat (length (items d)).

End deque.

(** ** Collaborators

    The pose-estimation client, the sequence classes, the serializer, the
    transformer, the trained model and the actuator are defined outside the
    two modelled files.  Their data types and the functions the pipeline
    calls are parameters; each call may return or raise.  The clock is an
    oracle: the [n]-th reading of the process is [time_time n] (seconds, a
    float) or [time_time_ns n] (nanoseconds, an integer). *)

(** [frame_data], the dict built by
    [update_frame_data_from_js_client_keypoints]. *)
Record Frame (JP : Type) : Type := mkFrame {
  sequence_id : pyval;
  sequence_source : string;
  frame_number : pyval;
  image_dimensions : pyval;
  joint_positions : JP
}.
Arguments mkFrame {JP} _ _ _ _ _.
Arguments sequence_id {JP} _.
Arguments sequence_source {JP} _.
Arguments frame_number {JP} _.
Arguments image_dimensions {JP} _.
Arguments joint_positions {JP} _.

(** An object together with the number of clock readings the process has
    made so far. *)
Record St (C : Type) : Type := mkSt { obj : C; clock_reads : nat }.
Arguments mkSt {C} _ _.
Arguments obj {C} _.
Arguments clock_reads {C} _.

Class Collaborators : Type := {
  Landmarks : Type;
  JointPositions : Type;
  BlazePoseFrames : Type;
  SequenceData : Type;
  Data : Type;
  Meta : Type;
  TrainedModel : Type;
  Float : Type;
  Ack : Type;
  (** [BlazePoseSequence(name, sequence, include_geometry)
        .generate_blaze_pose_frames_from_sequence()] *)
  generate_blaze_pose_frames_from_sequence :
    string -> list (Frame JointPositions) -> bool -> outcome BlazePoseFrames;
  (** [BlazePoseSequenceSerializer().serialize(sequence)] *)
  serialize : BlazePoseFrames -> outcome SequenceData;
  (** float subtraction and [1.0 / x] *)
  fsub : Float -> Float -> Float;
  fdiv_one : Float -> outcome Float;
  time_time : nat -> Float;
  time_time_ns : nat -> Z
}.

Section Pipeline.

Context `{Collaborators}.

(** [MediaPipeClient]: only [serialize_pose_landmarks] is used. *)
Record MediaPipeClient : Type := {
  serialize_pose_landmarks : Landmarks -> outcome JointPositions
}.

(** [SequenceTransformer]: [transform(data, columns)] returns a pair. *)
Record SequenceTransformer : Type := {
  transform : SequenceData -> list string -> outcome (Data * Meta)
}.

(** The actuator behind [PoserApp.actuator]. *)
Record Actuator : Type := {
  send : string -> outcome unit;
  receive : outcome Ack
}.

(** The payload of a [frame_result] event. *)
Inductive frame_result : Type :=
  | ErrorResult (error : string)
  | ClassificationResult
      (classification : pyval)
      (timestamp : string)
      (processing_time : Float)
      (frame_rate_capacity : Float)
      (actuation : Ack).

(** What the process does that is visible from outside the two classes,
    in the order it happens. *)
Inductive event : Type :=
  | Call_serialize_pose_landmarks (pose_landmarks : Landmarks)
  | Call_generate_blaze_pose_frames
      (name : string) (sequence : list (Frame JointPositions))
      (include_geometry : bool)
  | Call_serialize (sequence : BlazePoseFrames)
  | Call_transform (data : SequenceData) (columns : list string)
  | Call_predict_fn (data : Data)
  | Call_send (data : string)
  | Call_receive
  | Emit (name : string) (payload : frame_result).

Definition Py (C A : Type) : Type := M event (St C) A.

Definition get_self {C} : Py C C := fun s => mkResult s [] (Returns (obj s)).

Definition set_self {C} (f : C -> C) : Py C unit :=
  modify (fun s => mkSt (f (obj s)) (clock_reads s)).

Definition tick {C} : Py C nat :=
  fun s => mkResult (mkSt (obj s) (S (clock_reads s))) [] (Returns (clock_reads s)).

(** [time.time()] and [time.time_ns()] *)
Definition time {C} : Py C Float := n <- tick ;; ret (time_time n).
Definition time_ns {C} : Py C Z := n <- tick ;; ret (time_time_ns n).

(** [emit(name, payload)] of flask_socketio *)
Definition emit {C} (name : string) (payload : frame_result) : Py C unit :=
  record (Emit name payload).

(** ** [class MLFlowClient] *)

Record MLFlowClient : Type := mkMLFlowClient {
  frame_window : Z;
  model : option TrainedModel;
  transformer : option SequenceTransformer;
  mpc : option MediaPipeClient;
  frames : deque.t (Frame JointPositions);
  current_classification : option bool;
  predict_fn : option (Data -> outcome pyval);
  input_example : gmap string (list string);
  input_columns : list string
}.

Definition with_frames (fr : deque.t (Frame JointPositions)) (c : MLFlowClient) :=
  mkMLFlowClient (frame_window c) (model c) (transformer c) (mpc c) fr
    (current_classification c) (predict_fn c) (input_example c)
    (input_columns c).

Definition with_current_classification (cc : option bool) (c : MLFlowClient) :=
  mkMLFlowClient (frame_window c) (model c) (transformer c) (mpc c) (frames c)
    cc (predict_fn c) (input_example c) (input_columns c).

(** The largest [Py_ssize_t] of a 64-bit build of CPython: [deque]
    converts its [maxlen] to that type. *)
Definition PY_SSIZE_T_MAX : Z := 9223372036854775807.

(** [MLFlowClient.__init__].  [deque([], maxlen=n)] raises [OverflowError]
    for an [n] that does not fit [Py_ssize_t] and [ValueError] for a
    negative [n] that does; [input_example["columns"]] raises [KeyError]
    when the key is absent. *)
Definition MLFlowClient_init
    (frame_window : Z)
    (mediapipe_client_instance : option MediaPipeClient)
    (trained_model : option TrainedModel)
    (data_transformer : option SequenceTransformer)
    (predict_fn : option (Data -> outcome pyval))
    (input_example : gmap string (list string)) : outcome MLFlowClient :=
  if decide (frame_window < - PY_SSIZE_T_MAX - 1
             \/ PY_SSIZE_T_MAX < frame_window)%Z then
    Raises (OverflowError "Python int too large to convert to C ssize_t")
  else if decide (frame_window < 0)%Z then
    Raises (ValueError "maxlen must be non-negative")
  else
    match input_example !! "columns" with
    | None => Raises (KeyError "columns")
    | Some columns =>
        Returns (mkMLFlowClient frame_window trained_model data_transformer
                   mediapipe_client_instance
                   (deque.new (Z.to_nat frame_window))
                   None predict_fn input_example columns)
    end.

(** The default [input_example = {"columns": []}]. *)
Definition default_input_example : gmap string (list string) :=
  {[ "columns" := [] ]}.

(** The dict [frame_data] once its ["joint_positions"] entry is set. *)
Definition frame_data (jp : JointPositions) : Frame JointPositions :=
  mkFrame PyNone "web" PyNone PyNone jp.

(** [update_frame_data_from_js_client_keypoints]: the payload is the JS
    client's object; only its ["landmarks"] entry, a list of poses, is
    read. *)
Definition update_frame_data_from_js_client_keypoints
    (keypoint_results : gmap string (list Landmarks))
  : Py MLFlowClient (deque.t (Frame JointPositions)) :=
  match keypoint_results !! "landmarks" with
  | Some (pose :: _) =>
      self <- get_self ;;
      client <- attr "serialize_pose_landmarks" (mpc self) ;;
      jp <- call (Call_serialize_pose_landmarks pose)
                 (serialize_pose_landmarks client pose) ;;
      set_self (fun c =>
        with_frames
          (deque.append (frame_data jp) (frames c)) c)
  | _ => ret tt
  end ;;;
  self <- get_self ;;
  ret (frames self).

(** [run_keypoint_pipeline]: every path returns [None]. *)
Definition run_keypoint_pipeline
    (keypoints : gmap string (list Landmarks)) : Py MLFlowClient pyval :=
  current_frames <- update_frame_data_from_js_client_keypoints keypoints ;;
  self <- get_self ;;
  if decide (deque.len current_frames = frame_window self) then
    t <- time_ns ;;
    sequence <- call (Call_generate_blaze_pose_frames
                        ("sequence-" +:+ py_str t)
                        (deque.items current_frames) false)
                     (generate_blaze_pose_frames_from_sequence
                        ("sequence-" +:+ py_str t)
                        (deque.items current_frames) false) ;;
    sequence_data <- call (Call_serialize sequence) (serialize sequence) ;;
    tr <- attr "transform" (transformer self) ;;
    dm <- call (Call_transform sequence_data (input_columns self))
               (transform tr sequence_data (input_columns self)) ;;
    match predict_fn self with
    | None => ret PyNone
    | Some f =>
        label <- call (Call_predict_fn (fst dm)) (f (fst dm)) ;;
        set_self (with_current_classification (Some (py_bool label))) ;;;
        ret PyNone
    end
  else ret PyNone.

(** ** [class PoserApp] and the socket handler of [api/app.py]

    The handler is written against whatever object [pc.poser_client]
    holds: it calls its [run_keypoint_pipeline] method and reads its
    [current_classification] attribute.  That interface is a class here,
    and [MLFlowClient] is an instance of it. *)

Class KeypointClient (C : Type) : Type := {
  client_run_keypoint_pipeline : gmap string (list Landmarks) -> Py C pyval;
  client_current_classification : C -> pyval
}.

(** The attribute [current_classification] of an [MLFlowClient] as a
    Python value: [None], [True] or [False]. *)
Definition classification_value (cc : option bool) : pyval :=
  match cc with
  | None => PyNone
  | Some b => PyBool b
  end.

#[export] Instance MLFlowClient_KeypointClient : KeypointClient MLFlowClient := {
  client_run_keypoint_pipeline := run_keypoint_pipeline;
  client_current_classification :=
    fun self => classification_value (current_classification self)
}.

Record PoserApp (C : Type) : Type := mkPoserApp {
  poser_client : option C;
  actuator : option Actuator
}.
#[global] Arguments mkPoserApp {C} _ _.
#[global] Arguments poser_client {C} _.
#[global] Arguments actuator {C} _.

(** [PoserApp.__init__]: the [actuator] attribute does not exist yet. *)
Definition PoserApp_init {C} : PoserApp C := mkPoserApp None None.

Definition set_poser_client {C} (client : C) (app : PoserApp C) : PoserApp C :=
  mkPoserApp (Some client) (actuator app).

(** [set_actuator]: [device] is the freshly built [BluetoothDevice()]. *)
Definition set_actuator {C} (device : Actuator) (name : string)
    (app : PoserApp C) : PoserApp C :=
  if decide (name = "bluetooth_device")
  then mkPoserApp (poser_client app) (Some device)
  else app.

(** [pc.actuator.send(data)] then [pc.actuator.receive()] *)
Definition actuate {C} (data : string) : Py (PoserApp C) Ack :=
  app <- get_self ;;
  device <- attr "actuator" (actuator app) ;;
  call (Call_send data) (send device data) ;;;
  call Call_receive (receive device).

(** A method call on [pc.poser_client]: the method runs on the client
    object, and the object it leaves is the one [pc] refers to. *)
Definition on_poser_client {C A} (method : string) (m : Py C A)
  : Py (PoserApp C) A :=
  fun s =>
    match poser_client (obj s) with
    | None => mkResult s [] (Raises (AttributeError method))
    | Some client =>
        let r := m (mkSt client (clock_reads s)) in
        mkResult
          (mkSt (mkPoserApp (Some (obj (final r))) (actuator (obj s)))
                (clock_reads (final r)))
          (trace r) (out r)
    end.

(** [handle_keypoints], the listener of the ["keypoints"] event. *)
Definition handle_keypoints `{KeypointClient C}
    (payload : gmap string (list Landmarks)) : Py (PoserApp C) unit :=
  pc <- get_self ;;
  match poser_client pc with
  | None => emit "frame_result" (ErrorResult "No model set")
  | Some _ =>
      start_time <- time ;;
      results <- on_poser_client "run_keypoint_pipeline"
                   (client_run_keypoint_pipeline payload) ;;
      end_time <- time ;;
      let speed := fsub end_time start_time in
      if py_bool results then
        cc <- on_poser_client "current_classification"
                (self <- get_self ;; ret (client_current_classification self)) ;;
        match cc with
        | PyNone => ret tt
        | classification =>
            t <- time_ns ;;
            rate <- lift_outcome (fdiv_one speed) ;;
            pc <- get_self ;;
            device <- attr "actuator" (actuator pc) ;;
            call (Call_send "a") (send device "a") ;;;
            device_result <- call Call_receive (receive device) ;;
            emit "frame_result"
              (ClassificationResult classification (py_str t) speed rate
                 device_result)
        end
      else ret tt
  end.

(** ** Vocabulary of the properties *)

(** An observation whose landmark set is missing or empty. *)
Definition dropped (keypoints : gmap string (list Landmarks)) : Prop :=
  keypoints !! "landmarks" = None \/ keypoints !! "landmarks" = Some [].

(** A valid observation: it carries at least one pose, and the client's
    pose-estimation collaborator turns the first pose into the joint
    positions of frame [f]. *)
Definition valid (c : MLFlowClient) (keypoints : gmap string (list Landmarks))
    (f : Frame JointPositions) : Prop :=
  exists pose rest client jp,
    keypoints !! "landmarks" = Some (pose :: rest) /\
    mpc c = Some client /\
    serialize_pose_landmarks client pose = Returns jp /\
    f = frame_data jp.

(** The capacity of the client's frame window. *)
Definition capacity (c : MLFlowClient) : nat := Z.to_nat (frame_window c).

(** The frames in the client's window, oldest first. *)
Definition window (c : MLFlowClient) : list (Frame JointPositions) :=
  deque.items (frames c).

(** The window is full: [len(self.frames) == self.frame_window]. *)
Definition full (c : MLFlowClient) : Prop :=
  deque.len (frames c) = frame_window c.

(** The state of a client built by [__init__] and then only used through
    its methods: the deque was made with [maxlen = frame_window]. *)
Record wf (c : MLFlowClient) : Prop := mk_wf {
  wf_nonneg : (0 <= frame_window c)%Z;
  wf_maxlen : deque.maxlen (frames c) = capacity c;
  wf_length : length (window c) <= capacity c
}.

Definition is_stage_start (e : event) : bool :=
  match e with Call_generate_blaze_pose_frames _ _ _ => true | _ => false end.

Definition is_predict (e : event) : bool :=
  match e with Call_predict_fn _ => true | _ => false end.

Definition is_actuation (e : event) : bool :=
  match e with Call_send _ | Call_receive => true | _ => false end.

(** The payloads of the events emitted to the socket. *)
Definition emitted (tr : list event) : list (string * frame_result) :=
  omap (fun e => match e with Emit n p => Some (n, p) | _ => None end) tr.

(** The assemble, transform, predict stage was entered. *)
Definition stage_ran (tr : list event) : Prop := existsb is_stage_start tr = true.

(** The windows handed to the sequence assembler. *)
Definition assembled (tr : list event) : list (list (Frame JointPositions)) :=
  omap (fun e => match e with
                 | Call_generate_blaze_pose_frames _ fs _ => Some fs
                 | _ => None
                 end) tr.

(** The arguments of the calls to the transformer. *)
Definition transformed (tr : list event) : list (SequenceData * list string) :=
  omap (fun e => match e with
                 | Call_transform d cols => Some (d, cols)
                 | _ => None
                 end) tr.

(** The feature vectors handed to the prediction function. *)
Definition predicted (tr : list event) : list Data :=
  omap (fun e => match e with Call_predict_fn d => Some d | _ => None end) tr.

(** The calls made to the actuator. *)
Definition actuations (tr : list event) : list event :=
  List.filter is_actuation tr.

(** The state in which the handler, run in [app] with [client] bound,
    enters the pipeline step: it has read the clock once. *)
Definition pipeline_entry {C} (app : St (PoserApp C)) (client : C) : St C :=
  mkSt client (S (clock_reads app)).

(** The operations of [MLFlowClient] on an existing object. *)
Inductive method_call : Type :=
  | Run_keypoint_pipeline (keypoints : gmap string (list Landmarks))
  | Update_frame_data (keypoint_results : gmap string (list Landmarks)).

Definition invoke (m : method_call) (s : St MLFlowClient) : St MLFlowClient :=
  match m with
  | Run_keypoint_pipeline k => final (run_keypoint_pipeline k s)
  | Update_frame_data k =>
      final (update_frame_data_from_js_client_keypoints k s)
  end.

Definition invoke_all (ms : list method_call) (s : St MLFlowClient)
  : St MLFlowClient :=
  fold_left (fun s m => invoke m s) ms s.

(** Offering one observation after another to the window. *)
Fixpoint offer_all (obs : list (gmap string (list Landmarks)))
    (s : St MLFlowClient) : St MLFlowClient :=
  match obs with
  | [] => s
  | o :: obs' =>
      offer_all obs' (final (update_frame_data_from_js_client_keypoints o s))
  end.

(** The frame an observation adds to the window of client [c]: none when
    the observation is dropped, when the client has no pose-estimation
    collaborator, or when normalising the first pose raises. *)
Definition offered_frame (c : MLFlowClient)
    (keypoints : gmap string (list Landmarks))
  : option (Frame JointPositions) :=
  match keypoints !! "landmarks" with
  | Some (pose :: _) =>
      match mpc c with
      | Some client =>
          match serialize_pose_landmarks client pose with
          | Returns jp => Some (frame_data jp)
          | Raises _ => None
          end
      | None => None
      end
  | _ => None
  end.

(** The last [n] elements of a list. *)
Definition last_n {A} (n : nat) (l : list A) : list A :=
  drop (length l - n) l.

(** ** The ["frame"] listener of [api/app.py]

    [handle_frame] asks the client to decode the image and then calls
    [pc.run_frame_pipeline], a method [PoserApp] does not define.  Its
    result event has no ["actuation"] entry, so its events extend those of
    the pipeline. *)

(** What [handle_frame] needs of the client besides the members of
    [KeypointClient]: [convert_base64_to_image_array], which a client
    class may or may not define. *)
Class FrameClient (C : Type) : Type := {
  Image : Type;
  client_convert_base64_to_image_array : option (string -> Py C Image)
}.

(** [MLFlowClient] does not define [convert_base64_to_image_array]. *)
#[export] Instance MLFlowClient_FrameClient : FrameClient MLFlowClient := {
  Image := unit;
  client_convert_base64_to_image_array := None
}.

Inductive frame_event : Type :=
  | Pipeline_event (e : event)
  | Emit_frame_result
      (classification : pyval)
      (timestamp : string)
      (processing_time : Float)
      (frame_rate_capacity : Float).

(** A computation of the pipeline seen as one of the frame listener. *)
Definition relabel {E E' S A} (f : E -> E') (m : M E S A) : M E' S A :=
  fun s =>
    match m s with
    | mkResult s1 t o => mkResult s1 (f <$> t) o
    end.

(** [pc.run_frame_pipeline]: the attribute lookup on the [PoserApp]
    object fails, whatever the argument. *)
Definition PoserApp_run_frame_pipeline {C I} (image : I)
  : M frame_event (St (PoserApp C)) pyval :=
  raise (AttributeError "run_frame_pipeline").

Definition handle_frame {C : Type}
    {KC : KeypointClient C} {FC : FrameClient C}
    (payload : string) : M frame_event (St (PoserApp C)) unit :=
  pc <- relabel Pipeline_event get_self ;;
  match poser_client pc with
  | None =>
      relabel Pipeline_event (emit "frame_result" (ErrorResult "No model set"))
  | Some _ =>
      convert <- attr "convert_base64_to_image_array"
                   client_convert_base64_to_image_array ;;
      image <- relabel Pipeline_event
                 (on_poser_client "convert_base64_to_image_array"
                    (convert payload)) ;;
      start_time <- relabel Pipeline_event time ;;
      results <- PoserApp_run_frame_pipeline image ;;
      end_time <- relabel Pipeline_event time ;;
      let speed := fsub end_time start_time in
      if py_bool results then
        cc <- relabel Pipeline_event
                (on_poser_client "current_classification"
                   (self <- get_self ;;
                    ret (client_current_classification self))) ;;
        match cc with
        | PyNone => ret tt
        | classification =>
            t <- relabel Pipeline_event time_ns ;;
            rate <- lift_outcome (fdiv_one speed) ;;
            record (Emit_frame_result classification (py_str t) speed rate)
        end
      else ret tt
  end.

(** The events a frame listener emitted to the socket, of either shape. *)
Definition is_frame_emission (e : frame_event) : bool :=
  match e with
  | Pipeline_event (Emit _ _) => true
  | Emit_frame_result _ _ _ _ => true
  | _ => false
  end.

(** ** The [/set_model] route of [api/app.py]

    The route works on two module-level objects, [pc] and
    [trained_model]; the model builder, the trained-model methods, the
    transformer class, the client class and the actuator class are
    defined elsewhere and are parameters, each returning or raising. *)

Class RouteCollaborators (C : Type) : Type := {
  Model : Type;
  ModelData : Type;
  (** [mb.retrieve_model_from_pickle(file_path=...)] *)
  retrieve_model_from_pickle : string -> outcome (Model * ModelData);
  (** [trained_model.set_model(model=..., model_data=...)] *)
  TrainedModel_set_model :
    Model -> ModelData -> TrainedModel -> outcome TrainedModel;
  (** [sequence_transformer.TenFrameFlatColumnAngleTransformer()] *)
  TenFrameFlatColumnAngleTransformer : outcome SequenceTransformer;
  (** [trained_model.set_data_transformer(transformer)] *)
  TrainedModel_set_data_transformer :
    SequenceTransformer -> TrainedModel -> outcome TrainedModel;
  (** [poser_client.PoserClient(mediapipe_client_instance=...,
        trained_model=..., data_transformer=..., frame_window=...)] *)
  PoserClient :
    MediaPipeClient -> TrainedModel -> SequenceTransformer -> Z -> outcome C;
  (** [bluetooth_device.BluetoothDevice()] *)
  BluetoothDevice : outcome Actuator;
  (** the module-level [mpc] *)
  module_mpc : MediaPipeClient
}.

(** The module-level objects the route changes. *)
Record Server (C : Type) : Type := mkServer {
  pc : PoserApp C;
  trained_model : TrainedModel
}.
#[global] Arguments mkServer {C} _ _.
#[global] Arguments pc {C} _.
#[global] Arguments trained_model {C} _.

(** What the route hands back to Flask: a dict, with a status code when
    it is not 200. *)
Inductive response : Type :=
  | Error_response (error : string) (status : Z)
  | Result_response (result : string).

Definition model_location : string := "./data/trained_models".

Definition get_state {E S} : M E S S := fun s => mkResult s [] (Returns s).

Definition set_model {C : Type} {RC : RouteCollaborators C}
    (data : gmap string string) : M event (Server C) response :=
  match data !! "filename" with
  | None => ret (Error_response "No filename" 400)
  | Some trained_model_pickle_path =>
      mm <- lift_outcome
              (retrieve_model_from_pickle
                 (model_location +:+ "/" +:+ trained_model_pickle_path)) ;;
      srv <- get_state ;;
      tm <- lift_outcome
              (TrainedModel_set_model (fst mm) (snd mm) (trained_model srv)) ;;
      modify (fun srv => mkServer (pc srv) tm) ;;;
      transformer <- lift_outcome TenFrameFlatColumnAngleTransformer ;;
      tm' <- lift_outcome (TrainedModel_set_data_transformer transformer tm) ;;
      modify (fun srv => mkServer (pc srv) tm') ;;;
      client <- lift_outcome (PoserClient module_mpc tm' transformer 10) ;;
      modify (fun srv => mkServer (set_poser_client client (pc srv)) tm') ;;;
      device <- lift_outcome BluetoothDevice ;;
      modify (fun srv =>
                mkServer (set_actuator device "bluetooth_device" (pc srv))
                  (trained_model srv)) ;;;
      ret (Result_response
             ("Server Ready: classifier set to "
              +:+ trained_model_pickle_path +:+ "."))
  end.

End Pipeline.

(** ** [class VideoDataDataloopMergeService]
       of [services/video_data_dataloop_merge_service.py]

    The service keeps three dicts.  Two of them are iterated or filled in
    insertion order, so a dict is the list of its items, oldest key
    first; [merged_data] is only read and written by key.  The file
    system, the video data service and the annotation transformer are
    parameters. *)

Module merge_service.

(** An insertion-ordered dict with string keys. *)
Definition odict (V : Type) : Type := list (string * V).

(** [d[k]] when present *)
Fixpoint od_get {V} (k : string) (d : odict V) : option V :=
  match d with
  | [] => None
  | (k', v) :: d' => if decide (k = k') then Some v else od_get k d'
  end.

(** [d[k] = v]: an existing key keeps its place, a new key goes last. *)
Fixpoint od_set {V} (k : string) (v : V) (d : odict V) : odict V :=
  match d with
  | [] => [(k, v)]
  | (k', v') :: d' =>
      if decide (k = k') then (k, v) :: d' else (k', v') :: od_set k v d'
  end.

(** [needle in hay] for strings *)
Fixpoint contains (needle hay : string) : bool :=
  String.prefix needle hay
  || match hay with
     | EmptyString => false
     | String _ hay' => contains needle hay'
     end.

(** The exceptions the service meets. *)
Inductive raised : Type :=
  | VideoDataDataloopMergeServiceError (msg : string)
  | DataloopAnnotationTransformerServiceError
  | VideoDataServiceError
  | OtherError (name : string).

Inductive answer (A : Type) : Type :=
  | Done (a : A)
  | Failed (e : raised).
Arguments Done {A} a.
Arguments Failed {A} e.

(** What the service takes from outside. *)
Class Externals : Type := {
  (** one labelled example (the frames of a clip), the parsed annotation
      file and the data of one video *)
  Clip : Type;
  AnnotationData : Type;
  VideoData : Type;
  (** [glob.iglob(directory + "/**/*.json", recursive=True)] and the same
      for [*.webm], as lists of paths *)
  glob_json : string -> list string;
  glob_webm : string -> list string;
  (** [Path(json.load(open(annotation_path))["filename"]).stem], or
      nothing when any of it raises *)
  source_stem : string -> option string;
  (** [json.load(open(annotation))] *)
  load_annotation : string -> answer AnnotationData;
  (** [os.path.basename] and the first component of [os.path.split] *)
  basename : string -> string;
  dirname : string -> string;
  (** [vds.process_video(input_filename, video_input_path,
        output_data_path, write_to_file=False,
        key_off_frame_number=False, configuration={})] *)
  process_video : string -> string -> list string -> answer VideoData;
  (** [transformer.segment_video_data_with_annotations(video_data,
        dataloop_data)]: a dict from label to clips, as its items *)
  segment_video_data_with_annotations :
    VideoData -> AnnotationData -> answer (odict (list Clip));
  (** whether creating the output directory and [json.dumps] of the
      merged data go through *)
  prepare_output : string -> gmap string (list Clip) -> bool;
  (** whether opening and writing the file [combined_dataset_<t>.json]
      in the directory goes through *)
  write_json : string -> Z -> gmap string (list Clip) -> bool;
  (** the clock: the [n]-th reading of [time.time_ns()] *)
  time_ns_at : nat -> Z
}.

Section Service.

Context `{Externals}.

Record t : Type := mk {
  annotations_directory : string;
  video_directory : string;
  output_data_path : string;
  (* a one-element tuple: (output_keypoints_path,) *)
  output_keypoints_path : list string;
  annotation_video_map : odict string;
  video_annotation_map : odict string;
  merged_data : gmap string (list Clip)
}.

(** What happens outside the object: the files written, oldest first, and
    the number of clock readings. *)
Record world : Type := mkWorld {
  written : list (string * Z * gmap string (list Clip));
  clock : nat
}.

(** [__init__] *)
Definition init (annotations_directory video_directory output_data_path
                   output_keypoints_path : string) : t :=
  mk annotations_directory video_directory output_data_path
     [output_keypoints_path] [] [] ∅.

Definition with_maps (avm vam : odict string) (s : t) : t :=
  mk (annotations_directory s) (video_directory s) (output_data_path s)
     (output_keypoints_path s) avm vam (merged_data s).

Definition with_merged_data (m : gmap string (list Clip)) (s : t) : t :=
  mk (annotations_directory s) (video_directory s) (output_data_path s)
     (output_keypoints_path s) (annotation_video_map s)
     (video_annotation_map s) m.

(** The inner loop of [create_video_annotation_map] for one annotation. *)
Definition match_videos (annotation_path filename : string)
    (video_files : list string) (s : t) : t :=
  foldl (fun s video_path =>
           if contains filename video_path
           then with_maps (od_set annotation_path video_path
                             (annotation_video_map s))
                          (od_set video_path annotation_path
                             (video_annotation_map s)) s
           else s)
        s video_files.

(** The outer loop; any exception becomes the service's error, and what
    was entered before stays. *)
Fixpoint map_annotations (annotation_files video_files : list string)
    (s : t) : t * answer bool :=
  match annotation_files with
  | [] => (s, Done true)
  | annotation_path :: rest =>
      match source_stem annotation_path with
      | None =>
          (s, Failed (VideoDataDataloopMergeServiceError
                        "There was an error creating the annotation video map"))
      | Some filename =>
          map_annotations rest video_files
            (match_videos annotation_path filename video_files s)
      end
  end.

Definition create_video_annotation_map (s : t) : t * answer bool :=
  map_annotations (glob_json (annotations_directory s))
    (glob_webm (video_directory s)) s.

(** One label of [merge_segmented_data]. *)
Definition merge_label (merged : gmap string (list Clip))
    (item : string * list Clip) : gmap string (list Clip) :=
  let merged1 :=
    match merged !! item.1 with
    | Some (_ :: _) => merged
    | _ => <[item.1 := []]> merged
    end in
  foldl (fun m example => alter (fun l => l ++ [example]) item.1 m)
        merged1 item.2.

(** [merge_segmented_data]: on a dict of lists nothing in the loop raises,
    so the handler of the [try] is not entered. *)
Definition merge_segmented_data (segmented_data : odict (list Clip))
    (s : t) : t :=
  with_merged_data (foldl merge_label (merged_data s) segmented_data) s.

(** [write_merged_data_to_file] *)
Definition write_merged_data_to_file (s : t) (w : world)
  : world * answer bool :=
  if prepare_output (output_data_path s) (merged_data s) then
    let now := time_ns_at (clock w) in
    if write_json (output_data_path s) now (merged_data s)
    then (mkWorld (written w ++ [(output_data_path s, now, merged_data s)])
                  (S (clock w)),
          Done true)
    else (mkWorld (written w) (S (clock w)),
          Failed (VideoDataDataloopMergeServiceError
                    "Error outputting JSON for merged data."))
  else (w, Failed (VideoDataDataloopMergeServiceError
                     "Error outputting JSON for merged data.")).

(** The two [except] clauses of [generate_dataset_from_map]. *)
Definition convert (e : raised) : raised :=
  match e with
  | DataloopAnnotationTransformerServiceError =>
      VideoDataDataloopMergeServiceError
        "There was an error processing dataset due to the annotation transformer service"
  | VideoDataServiceError =>
      VideoDataDataloopMergeServiceError
        "There was an error processing dataset due to the VideoDataService"
  | _ => e
  end.

(** The loop of [generate_dataset_from_map] over the items of
    [annotation_video_map]. *)
Fixpoint process_items (limit : option Z) (write_to_file : bool)
    (process_counter : Z) (items : odict string) (s : t) (w : world)
  : t * world * answer (gmap string (list Clip)) :=
  match items with
  | [] => (s, w, Done (merged_data s))
  | (annotation, video) :: rest =>
      if decide (Some process_counter = limit)
      then (s, w, Done (merged_data s))
      else
        match load_annotation annotation with
        | Failed e => (s, w, Failed (convert e))
        | Done annotation_data =>
            match process_video (basename video) (dirname video)
                    (output_keypoints_path s) with
            | Failed e => (s, w, Failed (convert e))
            | Done video_data =>
                match segment_video_data_with_annotations video_data
                        annotation_data with
                | Failed e => (s, w, Failed (convert e))
                | Done segmented_data =>
                    let s1 := merge_segmented_data segmented_data s in
                    if write_to_file then
                      match write_merged_data_to_file s1 w with
                      | (w1, Failed e) => (s1, w1, Failed (convert e))
                      | (w1, Done _) =>
                          process_items limit write_to_file
                            (process_counter + 1) rest s1 w1
                      end
                    else
                      process_items limit write_to_file
                        (process_counter + 1) rest s1 w
                end
            end
        end
  end.

Definition generate_dataset_from_map (limit : option Z)
    (write_to_file : bool) (s : t) (w : world)
  : t * world * answer (gmap string (list Clip)) :=
  process_items limit write_to_file 0 (annotation_video_map s) s w.

(** What the three collaborators make of one item of the map. *)
Definition segment_item (s : t) (item : string * string)
  : answer (odict (list Clip)) :=
  match load_annotation item.1 with
  | Failed e => Failed e
  | Done annotation_data =>
      match process_video (basename item.2) (dirname item.2)
              (output_keypoints_path s) with
      | Failed e => Failed e
      | Done video_data =>
          segment_video_data_with_annotations video_data annotation_data
      end
  end.

(** The merged data after merging several segmented dicts in turn. *)
Definition merge_all (merged : gmap string (list Clip))
    (segmented : list (odict (list Clip))) : gmap string (list Clip) :=
  foldl (fun m segmented_data => foldl merge_label m segmented_data)
        merged segmented.

(** Whether the stem recorded in an annotation file occurs in a video
    path. *)
Definition matches (video_path annotation_path : string) : bool :=
  match source_stem annotation_path with
  | Some filename => contains filename video_path
  | None => false
  end.

(** How many items a call with [limit] processes out of [n]. *)
Definition processed (limit : option Z) (n : nat) : nat :=
  match limit with
  | None => n
  | Some l => if decide (0 <= l)%Z then Nat.min (Z.to_nat l) n else n
  end.

End Service.

End merge_service.

(** ** A concrete deployment

    Small collaborators on which the model can be run: a pose is a list of
    integers, normalising a pose keeps it, a sequence is the list of its
    frames, serialising concatenates the joint positions and the
    transformer hands the data on.  Clock readings and floats are
    integers. *)

Module Example.

Definition demo : Collaborators := {|
  Landmarks := list Z;
  JointPositions := list Z;
  BlazePoseFrames := list (Frame (list Z));
  SequenceData := list Z;
  Data := list Z;
  Meta := unit;
  TrainedModel := unit;
  Float := Z;
  Ack := string;
  generate_blaze_pose_frames_from_sequence := fun _ fs _ => Returns fs;
  serialize := fun fs => Returns (concat (joint_positions <$> fs));
  fsub := Z.sub;
  fdiv_one := fun x =>
    if decide (x = 0%Z) then Raises ZeroDivisionError
    else Returns (1000 / x)%Z;
  time_time := fun n => (10 * Z.of_nat n)%Z;
  time_time_ns := fun n => (10000 * Z.of_nat n)%Z
|}.

#[local] Existing Instance demo.

Definition demo_mpc : MediaPipeClient :=
  {| serialize_pose_landmarks := fun pose => Returns pose |}.

Definition demo_transformer : SequenceTransformer :=
  {| transform := fun d _ => Returns (d, tt) |}.

Definition demo_device : Actuator :=
  {| send := fun _ => Returns tt; receive := Returns "ok" |}.

(** Prediction functions: one answers with a label, one raises. *)
Definition says_squat : Data -> outcome pyval :=
  fun _ => Returns (PyStr "squat").

Definition fails : Data -> outcome pyval :=
  fun _ => Raises (RuntimeError "boom").

(** [MLFlowClient(frame_window=fw, mediapipe_client_instance=demo_mpc,
    data_transformer=demo_transformer, predict_fn=pf)] *)
Definition new_client (fw : Z) (pf : option (Data -> outcome pyval))
  : MLFlowClient :=
  match MLFlowClient_init fw (Some demo_mpc) None (Some demo_transformer)
          pf default_input_example with
  | Returns c => c
  | Raises _ =>
      mkMLFlowClient 0 None None None (deque.new 0) None None
        default_input_example []
  end.

(** An observation with one pose, and two observations without. *)
Definition obs (n : Z) : gmap string (list (list Z)) :=
  {[ "landmarks" := [[n]] ]}.

Definition obs_empty : gmap string (list (list Z)) :=
  {[ "landmarks" := [] ]}.

Definition obs_missing : gmap string (list (list Z)) := ∅.

(** The application with a client bound and the actuator set. *)
Definition app_with (c : MLFlowClient) : St (PoserApp MLFlowClient) :=
  mkSt (set_actuator demo_device "bluetooth_device"
          (set_poser_client c PoserApp_init)) 0.

(** The client of capacity 1 once its first valid observation has gone
    through the pipeline step: its window is full. *)
Definition after_first (pf : option (Data -> outcome pyval))
  : St MLFlowClient :=
  final (run_keypoint_pipeline (obs 1) (mkSt (new_client 1 pf) 0)).

(** Three method calls: an update and a step that are dropped, then a
    valid step. *)
Definition three_calls : list method_call :=
  [Update_frame_data obs_empty;
   Run_keypoint_pipeline obs_missing;
   Run_keypoint_pipeline (obs 2)].

(** A client as the handler expects it: its pipeline step runs the
    [MLFlowClient] step and then answers [True]. *)
Record reporting_client : Type := Reporting { inner : MLFlowClient }.

Definition reporting_KeypointClient : KeypointClient reporting_client := {|
  client_run_keypoint_pipeline := fun keypoints s =>
    let r := run_keypoint_pipeline keypoints
               (mkSt (inner (obj s)) (clock_reads s)) in
    mkResult (mkSt (Reporting (obj (final r))) (clock_reads (final r)))
      (trace r)
      (match out r with
       | Returns _ => Returns (PyBool true)
       | Raises e => Raises e
       end);
  client_current_classification := fun c =>
    classification_value (current_classification (inner c))
|}.

(** [MLFlowClient(frame_window=fw, mediapipe_client_instance=m)]: no
    transformer, no prediction function. *)
Definition partial_client (fw : Z) (m : option MediaPipeClient)
  : MLFlowClient :=
  match MLFlowClient_init fw m None None None default_input_example with
  | Returns c => c
  | Raises _ =>
      mkMLFlowClient 0 None None None (deque.new 0) None None
        default_input_example []
  end.

(** A device that is not connected. *)
Definition broken_device : Actuator :=
  {| send := fun _ => Raises (RuntimeError "not connected");
     receive := Returns "ok" |}.

(** The application around a reporting client, with or without a device. *)
Definition reporting_app (device : option Actuator)
  : St (PoserApp reporting_client) :=
  mkSt (mkPoserApp (Some (Reporting (new_client 1 (Some says_squat))))
          device) 0.

(** A stream with a valid, an empty and another valid observation. *)
Definition mixed_stream : list (gmap string (list (list Z))) :=
  [obs 1; obs_empty; obs 2].

(** A pose-estimation client that cannot normalise a pose without
    joints, and an observation carrying such a pose. *)
Definition picky_mpc : MediaPipeClient :=
  {| serialize_pose_landmarks := fun pose =>
       match pose with
       | [] => Raises (ValueError "no joints")
       | _ => Returns pose
       end |}.

Definition obs_no_joints : gmap string (list (list Z)) :=
  {[ "landmarks" := [[]] ]}.

(** The client of capacity 1 around [picky_mpc] once its first valid
    observation has gone through the pipeline step: its window is full. *)
Definition picky_full : MLFlowClient :=
  match MLFlowClient_init 1 (Some picky_mpc) None (Some demo_transformer)
          (Some says_squat) default_input_example with
  | Returns c => obj (final (run_keypoint_pipeline (obs 1) (mkSt c 0)))
  | Raises _ =>
      mkMLFlowClient 0 None None None (deque.new 0) None None
        default_input_example []
  end.

(** A transformer that rejects its input, and a client of capacity 1
    with it and without a prediction function. *)
Definition failing_transformer : SequenceTransformer :=
  {| transform := fun _ _ => Raises (RuntimeError "bad columns") |}.

Definition client_with_failing_transformer : MLFlowClient :=
  match MLFlowClient_init 1 (Some demo_mpc) None (Some failing_transformer)
          None default_input_example with
  | Returns c => c
  | Raises _ =>
      mkMLFlowClient 0 None None None (deque.new 0) None None
        default_input_example []
  end.

(** The collaborators of the [set_model] route: every file but
    [missing.pickle] holds a model, and the bluetooth device answers as
    given. *)
Definition demo_route (bluetooth : outcome Actuator)
  : RouteCollaborators MLFlowClient := {|
  Model := string;
  ModelData := unit;
  retrieve_model_from_pickle := fun path =>
    if decide (path = "./data/trained_models/missing.pickle")
    then Raises (RuntimeError "no such file")
    else Returns (path, tt);
  TrainedModel_set_model := fun _ _ tm => Returns tm;
  TenFrameFlatColumnAngleTransformer := Returns demo_transformer;
  TrainedModel_set_data_transformer := fun _ tm => Returns tm;
  PoserClient := fun m tm tr fw =>
    MLFlowClient_init fw (Some m) (Some tm) (Some tr) None
      default_input_example;
  BluetoothDevice := bluetooth;
  module_mpc := demo_mpc
|}.

Definition fresh_server : Server MLFlowClient := mkServer PoserApp_init tt.

Definition squat_request : gmap string string :=
  {[ "filename" := "squat.pickle" ]}.

(** *** A small data set for the merge service

    Two annotation files, the first made from a video of which a second
    take exists, and three videos.  An annotation is its label, the data of
    a video one clip.  The video data service fails on the lunge video;
    nothing can be written into the directory [readonly]. *)

Fixpoint path_basename (p : string) : string :=
  match p with
  | EmptyString => EmptyString
  | String c p' =>
      if merge_service.contains "/" p' then path_basename p'
      else if decide (String c EmptyString = "/") then p' else p
  end.

Fixpoint path_dirname (p : string) : string :=
  match p with
  | EmptyString => EmptyString
  | String c p' =>
      if merge_service.contains "/" p' then String c (path_dirname p')
      else EmptyString
  end.

Definition demo_files : merge_service.Externals := {|
  merge_service.Clip := Z;
  merge_service.AnnotationData := string;
  merge_service.VideoData := list Z;
  merge_service.glob_json := fun directory =>
    if decide (directory = "annotations")
    then ["annotations/a1.json"; "annotations/a2.json"]
    else if decide (directory = "mixed")
    then ["annotations/a1.json"; "mixed/broken.json"; "annotations/a2.json"]
    else [];
  merge_service.glob_webm := fun directory =>
    if decide (directory = "videos")
    then ["videos/squat_1.webm"; "videos/lunge.webm";
          "videos/squat_1_take2.webm"]
    else [];
  merge_service.source_stem := fun path =>
    if decide (path = "annotations/a1.json") then Some "squat_1"
    else if decide (path = "annotations/a2.json") then Some "lunge"
    else None;
  merge_service.load_annotation := fun path =>
    if decide (path = "annotations/a1.json") then merge_service.Done "squat"
    else if decide (path = "annotations/a2.json")
    then merge_service.Done "lunge"
    else merge_service.Failed (merge_service.OtherError "FileNotFoundError");
  merge_service.basename := path_basename;
  merge_service.dirname := path_dirname;
  merge_service.process_video := fun input_filename _ _ =>
    if decide (input_filename = "lunge.webm")
    then merge_service.Failed merge_service.VideoDataServiceError
    else merge_service.Done [Z.of_nat (String.length input_filename)];
  merge_service.segment_video_data_with_annotations :=
    fun video_data annotation_data =>
      merge_service.Done [(annotation_data, video_data)];
  merge_service.prepare_output := fun directory _ =>
    if decide (directory = "readonly") then false else true;
  merge_service.write_json := fun _ _ _ => true;
  merge_service.time_ns_at := fun n => (1000 * Z.of_nat n)%Z
|}.

(** The service over a given annotations directory and output
    directory, as built and once its map has been created. *)
Definition service_at (annotations output : string)
  : merge_service.t (H := demo_files) :=
  merge_service.init annotations "videos" output "keypoints".

Definition mapped_at (output : string) : merge_service.t (H := demo_files) :=
  (merge_service.create_video_annotation_map
     (service_at "annotations" output)).1.

Definition no_files : merge_service.world (H := demo_files) :=
  merge_service.mkWorld [] 0.

End Example.

(** ** Facts about the deque *)

Lemma deque_maxlen_append {A} (x : A) (d : deque.t A) :
  deque.maxlen (deque.append x d) = deque.maxlen d.
Proof. unfold deque.append. case_decide; reflexivity. Qed.

Lemma deque_length_append_le {A} (x : A) (d : deque.t A) :
  length (deque.items d) <= deque.maxlen d ->
  length (deque.items (deque.append x d)) <= deque.maxlen d.
Proof.
  intros Hle. unfold deque.append. case_decide; simpl.
  - rewrite length_drop, length_app. simpl. lia.
  - lia.
Qed.

(** The contents after an append are the last [maxlen] elements of the
    old contents followed by the new element. *)
Lemma deque_items_append {A} (x : A) (d : deque.t A) :
  length (deque.items d) <= deque.maxlen d ->
  deque.items (deque.append x d)
  = drop (length (deque.items d ++ [x]) - deque.maxlen d) (deque.items d ++ [x]).
Proof.
  intros Hle. unfold deque.append. rewrite length_app. simpl.
  case_decide; simpl.
  - replace (length (deque.items d) + 1 - deque.maxlen d) with 1 by lia.
    reflexivity.
  - replace (length (deque.items d) + 1 - deque.maxlen d) with 0 by lia.
    reflexivity.
Qed.

Section PipelineFacts.

Context `{Collaborators}.

(** ** Proof machinery *)

Ltac unfold_py :=
  unfold handle_keypoints, on_poser_client, run_keypoint_pipeline,
    update_frame_data_from_js_client_keypoints, emit, time, time_ns, tick,
    set_self, get_self, call, attr, record, lift_outcome, modify, bind,
    raise, ret.

(** Case analysis on the innermost scrutinee the goal is stuck on. *)
Ltac case_step :=
  match goal with
  | |- context [match ?x with _ => _ end] =>
      lazymatch x with
      | context [match _ with _ => _ end] => fail
      | _ => destruct x eqn:?; cbn
      end
  end.

Ltac py_cases := unfold_py; cbn; repeat case_step.

Lemma update_dropped keypoints s :
  dropped keypoints ->
  update_frame_data_from_js_client_keypoints keypoints s
  = mkResult s [] (Returns (frames (obj s))).
Proof.
  intros [Hk | Hk]; unfold_py; rewrite Hk; reflexivity.
Qed.

Lemma update_valid keypoints s f :
  valid (obj s) keypoints f ->
  exists pose,
    update_frame_data_from_js_client_keypoints keypoints s
    = mkResult
        (mkSt (with_frames (deque.append f (frames (obj s))) (obj s))
              (clock_reads s))
        [Call_serialize_pose_landmarks pose]
        (Returns (deque.append f (frames (obj s)))).
Proof.
  intros (pose & rest & client & jp & Hk & Hm & Hs & ->).
  exists pose. unfold_py. rewrite Hk. simpl. rewrite Hm. simpl.
  rewrite Hs. reflexivity.
Qed.

(** *** The monad's laws used below *)

Lemma bind_returns {E S A B} (m : M E S A) (k : A -> M E S B) s s1 t a :
  m s = mkResult s1 t (Returns a) ->
  bind m k s = mkResult (final (k a s1)) (t ++ trace (k a s1)) (out (k a s1)).
Proof. intros Hm. unfold bind. rewrite Hm. destruct (k a s1); reflexivity. Qed.

Lemma bind_raises {E S A B} (m : M E S A) (k : A -> M E S B) s s1 t e :
  m s = mkResult s1 t (Raises e) ->
  bind m k s = mkResult s1 t (Raises e).
Proof. intros Hm. unfold bind. rewrite Hm. reflexivity. Qed.

(** *** What the methods leave alone *)

Lemma update_keeps_configuration keypoints s :
  let c' := obj (final (update_frame_data_from_js_client_keypoints keypoints s)) in
  frame_window c' = frame_window (obj s) /\
  mpc c' = mpc (obj s) /\
  transformer c' = transformer (obj s) /\
  predict_fn c' = predict_fn (obj s) /\
  input_columns c' = input_columns (obj s) /\
  current_classification c' = current_classification (obj s) /\
  deque.maxlen (frames c') = deque.maxlen (frames (obj s)).
Proof.
  py_cases; rewrite ?deque_maxlen_append; repeat split; congruence.
Qed.

Lemma run_keeps_configuration keypoints s :
  let c' := obj (final (run_keypoint_pipeline keypoints s)) in
  frame_window c' = frame_window (obj s) /\
  mpc c' = mpc (obj s) /\
  transformer c' = transformer (obj s) /\
  predict_fn c' = predict_fn (obj s) /\
  input_columns c' = input_columns (obj s) /\
  frames c'
  = frames (obj (final (update_frame_data_from_js_client_keypoints keypoints s))).
Proof.
  py_cases; repeat split; congruence.
Qed.

Lemma run_returns_None keypoints s v :
  out (run_keypoint_pipeline keypoints s) = Returns v -> v = PyNone.
Proof.
  py_cases; congruence.
Qed.

(** *** The client stays well formed *)

Lemma wf_init fw m tm tr pf ie c :
  MLFlowClient_init fw m tm tr pf ie = Returns c ->
  wf c /\ window c = [] /\ frame_window c = fw /\
  current_classification c = None /\ predict_fn c = pf.
Proof.
  unfold MLFlowClient_init. case_decide; [discriminate |].
  case_decide; [discriminate |].
  destruct (ie !! "columns"); [| discriminate].
  intros [= <-]. repeat split; cbn; lia.
Qed.

Lemma wf_append f c :
  wf c -> wf (with_frames (deque.append f (frames c)) c).
Proof.
  intros [Hn Hm Hl]. unfold capacity, window in *.
  split; unfold capacity, window; cbn.
  - exact Hn.
  - rewrite deque_maxlen_append. exact Hm.
  - rewrite <- Hm. apply deque_length_append_le. rewrite Hm. exact Hl.
Qed.

Lemma wf_update keypoints s :
  wf (obj s) ->
  wf (obj (final (update_frame_data_from_js_client_keypoints keypoints s))).
Proof.
  intros Hwf. py_cases; auto using wf_append.
Qed.

Lemma wf_run keypoints s :
  wf (obj s) -> wf (obj (final (run_keypoint_pipeline keypoints s))).
Proof.
  intros Hwf.
  pose proof (wf_update keypoints s Hwf) as [Hn Hm Hl].
  destruct (run_keeps_configuration keypoints s) as (Hfw & _ & _ & _ & _ & Hfr).
  destruct (update_keeps_configuration keypoints s) as (Hfw' & _).
  unfold capacity, window in *.
  split; unfold capacity, window; rewrite ?Hfr, ?Hfw; rewrite ?Hfw' in *; assumption.
Qed.

(** *** The last elements of a growing list *)

Lemma drop_excess_step {A} (C : nat) (w fs : list A) (f : A) :
  length w <= C ->
  let w1 := drop (length (w ++ [f]) - C) (w ++ [f]) in
  drop (length (w1 ++ fs) - C) (w1 ++ fs)
  = drop (length (w ++ f :: fs) - C) (w ++ f :: fs).
Proof.
  intros Hle w1. subst w1.
  replace (w ++ f :: fs) with ((w ++ [f]) ++ fs) by (rewrite <- app_assoc; reflexivity).
  rewrite !length_app, length_drop, !length_app. cbn [length].
  destruct (decide (length w = C)) as [Heq | Hne].
  - replace (length w + 1 - C) with 1 by lia.
    replace (length w + 1 - 1 + length fs - C) with (length fs) by lia.
    replace (length w + 1 + length fs - C) with (1 + length fs) by lia.
    rewrite <- drop_drop.
    f_equal. destruct w; cbn; [cbn in Heq; subst C |]; reflexivity.
  - replace (length w + 1 - C) with 0 by lia.
    rewrite Nat.sub_0_r. reflexivity.
Qed.

(** *** Offering a run of valid observations *)

Lemma offer_valid keypoints s f :
  valid (obj s) keypoints f ->
  final (update_frame_data_from_js_client_keypoints keypoints s)
  = mkSt (with_frames (deque.append f (frames (obj s))) (obj s)) (clock_reads s).
Proof.
  intros Hv. destruct (update_valid keypoints s f Hv) as [pose ->]. reflexivity.
Qed.

Lemma offer_all_valid obs fs :
  forall c clock,
    wf c ->
    Forall2 (valid c) obs fs ->
    let c' := obj (offer_all obs (mkSt c clock)) in
    wf c' /\
    capacity c' = capacity c /\
    window c'
    = drop (length (window c ++ fs) - capacity c) (window c ++ fs).
Proof.
  revert fs. induction obs as [| o obs IH]; intros fs c clock Hwf Hall.
  - inversion Hall; subst. cbn. split; [exact Hwf |]. split; [reflexivity |].
    rewrite app_nil_r.
    replace (length (window c) - capacity c) with 0
      by (destruct Hwf; lia).
    reflexivity.
  - inversion Hall as [| ? f ? fs' Hv Hrest]; subst. cbn [offer_all].
    rewrite (offer_valid o (mkSt c clock) f Hv). cbn [obj clock_reads].
    set (c1 := with_frames (deque.append f (frames c)) c).
    assert (Hwf1 : wf c1) by (apply wf_append; exact Hwf).
    assert (Hrest1 : Forall2 (valid c1) obs fs') by exact Hrest.
    destruct (IH fs' c1 clock Hwf1 Hrest1) as (Hwf' & Hcap' & Hwin).
    assert (Hcap : capacity c1 = capacity c) by reflexivity.
    split; [exact Hwf' |]. split; [rewrite <- Hcap; exact Hcap' |].
    cbn zeta in Hwin. rewrite Hwin.
    assert (Hw1 : window c1
                  = drop (length (window c ++ [f]) - capacity c) (window c ++ [f])).
    { unfold window, c1. cbn. destruct Hwf as [_ Hm Hl].
      unfold window in Hl. rewrite <- Hm in *.
      apply deque_items_append. exact Hl. }
    rewrite Hcap, Hw1.
    apply drop_excess_step. destruct Hwf; assumption.
Qed.

(** C3. For a frame window of capacity [C] and a sequence of valid
    observations offered one after another: the window never holds more
    than [C] frames, whatever prefix of the sequence has been offered; a
    valid frame pushed into a window at capacity evicts exactly the oldest
    frame and goes to the end; and once at least [C] valid frames have been
    pushed, the window is the last [C] of them in arrival order. *)
Theorem frame_window_is_sliding (c : MLFlowClient) (clock : nat)
    (obs : list (gmap string (list Landmarks)))
    (fs : list (Frame JointPositions)) :
  wf c ->
  Forall2 (valid c) obs fs ->
  (forall k,
     length (window (obj (offer_all (take k obs) (mkSt c clock))))
     <= capacity c) /\
  (forall o f,
     valid c o f -> length (window c) = capacity c -> 0 < capacity c ->
     window (obj (final (update_frame_data_from_js_client_keypoints o
                           (mkSt c clock))))
     = drop 1 (window c) ++ [f]) /\
  (capacity c <= length fs ->
   window (obj (offer_all obs (mkSt c clock)))
   = drop (length fs - capacity c) fs).
Proof.
  intros Hwf Hall. repeat split.
  - intros k.
    assert (Hpre : Forall2 (valid c) (take k obs) (take k fs))
      by (apply Forall2_take; exact Hall).
    destruct (offer_all_valid _ _ c clock Hwf Hpre) as ([_ _ Hl] & Hcap & _).
    rewrite <- Hcap. exact Hl.
  - intros o f Hv Hfull Hpos.
    rewrite (offer_valid o (mkSt c clock) f Hv). cbn [obj].
    unfold window in *. cbn.
    destruct Hwf as [_ Hm _]. unfold deque.append.
    rewrite Hm, length_app. cbn [length].
    case_decide; [| lia]. cbn.
    destruct (deque.items (frames c)); [cbn in Hfull; lia | reflexivity].
  - intros Hlen.
    destruct (offer_all_valid _ _ c clock Hwf Hall) as (_ & _ & Hwin).
    cbn zeta in Hwin. rewrite Hwin.
    rewrite length_app.
    replace (length (window c) + length fs - capacity c)
      with (length (window c) + (length fs - capacity c)) by lia.
    rewrite drop_app_add'; reflexivity.
Qed.

(** C4. An observation whose landmark set is missing or empty is dropped
    before it reaches the frame window: the frame-update step returns
    normally, calls nobody and leaves the whole client as it was, and the
    window has the same frames in the same order after the complete
    pipeline step too. *)
Theorem empty_observation_is_dropped
    (keypoints : gmap string (list Landmarks)) (s : St MLFlowClient) :
  dropped keypoints ->
  let r := update_frame_data_from_js_client_keypoints keypoints s in
  out r = Returns (frames (obj s)) /\
  final r = s /\
  trace r = [] /\
  window (obj (final (run_keypoint_pipeline keypoints s))) = window (obj s).
Proof.
  intros Hd. cbn zeta.
  destruct (run_keeps_configuration keypoints s) as (_ & _ & _ & _ & _ & Hfr).
  unfold window. rewrite Hfr.
  rewrite (update_dropped keypoints s Hd). cbn. repeat split; reflexivity.
Qed.

(** *** The handler in terms of the pipeline step *)

(** With a client bound, the handler reads the clock, runs the pipeline
    step on the client and reads the clock again; the step's return value
    is [None], so the branch that actuates and emits is not taken. *)
Lemma handle_keypoints_bound payload (s : St (PoserApp MLFlowClient)) client :
  poser_client (obj s) = Some client ->
  let r := run_keypoint_pipeline payload (pipeline_entry s client) in
  handle_keypoints payload s
  = mkResult
      (mkSt (mkPoserApp (Some (obj (final r))) (actuator (obj s)))
            (match out r with
             | Returns _ => S (clock_reads (final r))
             | Raises _ => clock_reads (final r)
             end))
      (trace r)
      (match out r with
       | Returns _ => Returns tt
       | Raises e => Raises e
       end).
Proof.
  intros Hc. cbn zeta.
  pose proof (run_returns_None payload (pipeline_entry s client)) as Hnone.
  unfold pipeline_entry in *.
  unfold handle_keypoints, on_poser_client, time, tick, get_self, bind, ret in *.
  cbn. rewrite Hc. cbn. rewrite Hc. cbn.
  destruct (out (run_keypoint_pipeline payload (mkSt client (S (clock_reads s)))))
    as [v | e] eqn:Hout; cbn.
  - rewrite (Hnone v eq_refl). cbn. rewrite app_nil_r. reflexivity.
  - reflexivity.
Qed.

(** C6. While no classifier is bound to the session, an inbound
    observation makes the handler emit exactly one event, the structured
    error with the text "No model set"; it calls nobody, returns normally,
    and leaves the application object (no client, so no window) as it
    was. *)
Theorem unbound_session_reports_no_model `{KeypointClient C}
    (payload : gmap string (list Landmarks)) (s : St (PoserApp C)) :
  poser_client (obj s) = None ->
  let r := handle_keypoints payload s in
  trace r = [Emit "frame_result" (ErrorResult "No model set")] /\
  emitted (trace r) = [("frame_result", ErrorResult "No model set")] /\
  out r = Returns tt /\
  final r = s /\
  poser_client (obj (final r)) = None.
Proof.
  intros Hc. cbn zeta.
  unfold handle_keypoints, emit, record, get_self, bind.
  cbn. rewrite Hc. cbn. repeat split; try reflexivity. exact Hc.
Qed.

(** *** The pipeline step, case by case *)

Lemma run_stage_iff_full keypoints s :
  (exists fr,
     out (update_frame_data_from_js_client_keypoints keypoints s) = Returns fr) ->
  stage_ran (trace (run_keypoint_pipeline keypoints s))
  <-> full (obj (final (update_frame_data_from_js_client_keypoints keypoints s))).
Proof.
  intros [fr Hfr]. revert Hfr. unfold stage_ran, full.
  py_cases; intros; split; intros; try congruence; try reflexivity;
    try discriminate.
Qed.

Lemma run_not_full keypoints s :
  ~ full (obj (final (update_frame_data_from_js_client_keypoints keypoints s))) ->
  trace (run_keypoint_pipeline keypoints s)
  = trace (update_frame_data_from_js_client_keypoints keypoints s) /\
  current_classification (obj (final (run_keypoint_pipeline keypoints s)))
  = current_classification (obj s).
Proof.
  unfold full. py_cases; intros; split; try reflexivity; try congruence;
    try contradiction.
Qed.

Lemma run_trace_is_internal keypoints s :
  emitted (trace (run_keypoint_pipeline keypoints s)) = [] /\
  actuations (trace (run_keypoint_pipeline keypoints s)) = [].
Proof.
  py_cases; split; reflexivity.
Qed.

Lemma run_without_prediction keypoints s :
  predicted (trace (run_keypoint_pipeline keypoints s)) = [] ->
  current_classification (obj (final (run_keypoint_pipeline keypoints s)))
  = current_classification (obj s).
Proof.
  py_cases; intros; try reflexivity; discriminate.
Qed.

Lemma run_classification_stays_set keypoints s b :
  current_classification (obj s) = Some b ->
  exists b',
    current_classification (obj (final (run_keypoint_pipeline keypoints s)))
    = Some b'.
Proof.
  py_cases; intros; eauto.
Qed.

Lemma update_keeps_classification keypoints s :
  current_classification
    (obj (final (update_frame_data_from_js_client_keypoints keypoints s)))
  = current_classification (obj s).
Proof.
  apply update_keeps_configuration.
Qed.

(** With a client bound the handler emits nothing and actuates nothing:
    the pipeline step hands back [None]. *)
Lemma handle_keypoints_bound_is_silent payload
    (s : St (PoserApp MLFlowClient)) client :
  poser_client (obj s) = Some client ->
  trace (handle_keypoints payload s)
  = trace (run_keypoint_pipeline payload (pipeline_entry s client)) /\
  emitted (trace (handle_keypoints payload s)) = [] /\
  actuations (trace (handle_keypoints payload s)) = [].
Proof.
  intros Hc. rewrite (handle_keypoints_bound payload s client Hc). cbn.
  split; [reflexivity |]. apply run_trace_is_internal.
Qed.

(** C5. With an [MLFlowClient] bound and an observation whose
    normalisation does not raise, the assemble, transform, predict stage
    of the handler's pipeline step is entered exactly when the window is
    full after the observation has been offered.  When the window is not
    full none of the stage's calls is made, the classification stays as
    it was, nothing is emitted and the handler returns.  When it is full
    the assembler is called on the window, and when the collaborators
    return and a prediction function is configured the whole pass runs
    (assemble, serialize, transform, predict, in that order) and the
    truth value of the prediction becomes the classification.  With a
    window of capacity 1 every valid observation leaves the window full,
    holding exactly its frame.  An observation whose normalisation raises
    ends the handler with that exception before the stage, full window or
    not. *)
Theorem stage_runs_iff_window_full
    (payload : gmap string (list Landmarks))
    (app : St (PoserApp MLFlowClient)) (client : MLFlowClient) :
  poser_client (obj app) = Some client ->
  let offered :=
    update_frame_data_from_js_client_keypoints payload
      (pipeline_entry app client) in
  let h := handle_keypoints payload app in
  let c1 := obj (final offered) in
  let name := "sequence-" +:+ py_str (time_time_ns (S (clock_reads app))) in
  (forall e,
     out offered = Raises e ->
     out h = Raises e /\ trace h = trace offered /\ ~ stage_ran (trace h) /\
     assembled (trace h) = [] /\ transformed (trace h) = [] /\
     predicted (trace h) = []) /\
  (forall fr,
     out offered = Returns fr ->
     (stage_ran (trace h) <-> full c1) /\
     (~ full c1 ->
      out h = Returns tt /\ trace h = trace offered /\
      assembled (trace h) = [] /\ transformed (trace h) = [] /\
      predicted (trace h) = [] /\ emitted (trace h) = [] /\
      (current_classification <$> poser_client (obj (final h)))
      = Some (current_classification client)) /\
     (full c1 ->
      assembled (trace h) = [window c1] /\
      forall seq sd tr dm f label,
        generate_blaze_pose_frames_from_sequence name (window c1) false
        = Returns seq ->
        serialize seq = Returns sd ->
        transformer client = Some tr ->
        transform tr sd (input_columns client) = Returns dm ->
        predict_fn client = Some f ->
        f (fst dm) = Returns label ->
        trace h
        = trace offered
          ++ [Call_generate_blaze_pose_frames name (window c1) false;
              Call_serialize seq;
              Call_transform sd (input_columns client);
              Call_predict_fn (fst dm)] /\
        out h = Returns tt /\
        (current_classification <$> poser_client (obj (final h)))
        = Some (Some (py_bool label)))) /\
  (forall f,
     wf client -> frame_window client = 1%Z -> valid client payload f ->
     (exists fr, out offered = Returns fr) /\
     window c1 = [f] /\ full c1).
Proof.
  intros Hc. cbn zeta.
  rewrite (handle_keypoints_bound payload app client Hc).
  cbn [out final trace obj poser_client fmap option_fmap option_map].
  unfold pipeline_entry.
  split; [| split].
  - intros e. unfold stage_ran.
    py_cases; intros He; try discriminate; simplify_eq;
      repeat split; try reflexivity; intros Habs; discriminate.
  - intros fr Hfr. split; [| split].
    + apply run_stage_iff_full. eexists. exact Hfr.
    + revert Hfr. unfold full.
      py_cases; intros Hfr Hnf; try discriminate; try contradiction;
        repeat split; rewrite ?app_nil_r; reflexivity.
    + revert Hfr. unfold full, window.
      py_cases; intros Hfr Hfull; try discriminate; try contradiction;
        (split; [reflexivity |]);
        intros seq sd tr dm f label Hg Hs Ht Htr Hp Hf;
        try discriminate; try congruence; simplify_eq;
        repeat split; rewrite ?app_nil_r; try reflexivity; congruence.
  - intros f Hwf Hfw Hv.
    destruct (update_valid payload
                {| obj := client; clock_reads := S (clock_reads app) |} f Hv)
      as [pose Hupd].
    rewrite Hupd. cbn [out final obj].
    assert (Hitems :
      deque.items (deque.append f (frames client)) = [f]).
    { destruct Hwf as [_ Hm Hl]. unfold capacity, window in *.
      rewrite Hfw in *. cbn in Hm, Hl.
      unfold deque.append. rewrite Hm, length_app. cbn [length].
      destruct (deque.items (frames client)) as [| x [| y l]]; cbn in *;
        try lia; reflexivity. }
    split; [eexists; reflexivity |].
    unfold window, full, deque.len. cbn. rewrite Hitems, Hfw.
    split; reflexivity.
Qed.

(** C7. With no prediction function configured the pipeline step never
    calls one and never changes the current classification, whatever else
    happens in the step.  The test for the prediction function comes
    after the call to the transformer: whenever the step got as far as
    that call and it returned, the step returns normally with [None]; in
    particular, on a full window whose assembler, serializer and
    transformer return, the step makes exactly those three calls and
    returns [None] without raising. *)
Theorem absent_predict_fn_short_circuits
    (keypoints : gmap string (list Landmarks)) (s : St MLFlowClient) :
  predict_fn (obj s) = None ->
  let u := update_frame_data_from_js_client_keypoints keypoints s in
  let r := run_keypoint_pipeline keypoints s in
  let name := "sequence-" +:+ py_str (time_time_ns (clock_reads s)) in
  predicted (trace r) = [] /\
  current_classification (obj (final r)) = current_classification (obj s) /\
  (forall tr sd cols dm,
     transformer (obj s) = Some tr ->
     transformed (trace r) = [(sd, cols)] ->
     transform tr sd cols = Returns dm ->
     out r = Returns PyNone) /\
  (forall fr seq sd tr dm,
     out u = Returns fr ->
     full (obj (final u)) ->
     generate_blaze_pose_frames_from_sequence name (window (obj (final u)))
       false = Returns seq ->
     serialize seq = Returns sd ->
     transformer (obj s) = Some tr ->
     transform tr sd (input_columns (obj s)) = Returns dm ->
     out r = Returns PyNone /\
     trace r
     = trace u
       ++ [Call_generate_blaze_pose_frames name (window (obj (final u))) false;
           Call_serialize seq;
           Call_transform sd (input_columns (obj s))]).
Proof.
  intros Hp. cbn zeta. split; [| split; [| split]].
  - revert Hp. py_cases; intros Hp; try reflexivity; congruence.
  - revert Hp. py_cases; intros Hp; try reflexivity; congruence.
  - revert Hp.
    py_cases; intros Hp tr sd cols dm Ht Hcall Hret; try reflexivity;
      try discriminate; try congruence; simplify_eq.
  - intros fr seq sd tr dm Hu Hfull Hg Hs Ht Htr.
    revert Hp Hu Hfull Hg Hs Ht Htr. unfold full, window.
    py_cases; intros Hp Hu Hfull Hg Hs Ht Htr;
      try contradiction; try discriminate; try congruence;
      simplify_eq; split; try reflexivity; congruence.
Qed.

(** C10. When the prediction function is called on a feature vector and
    returns a label, the step returns normally and the classification it
    stores is the truth value of that label, not the label. *)
Theorem classification_is_truth_value_of_label
    (keypoints : gmap string (list Landmarks)) (s : St MLFlowClient)
    (f : Data -> outcome pyval) (data : Data) (label : pyval) :
  predict_fn (obj s) = Some f ->
  predicted (trace (run_keypoint_pipeline keypoints s)) = [data] ->
  f data = Returns label ->
  current_classification (obj (final (run_keypoint_pipeline keypoints s)))
  = Some (py_bool label) /\
  out (run_keypoint_pipeline keypoints s) = Returns PyNone.
Proof.
  intros Hp. revert Hp.
  py_cases; intros Hp Hcall Hret; try discriminate; simplify_eq;
    split; congruence.
Qed.

Lemma run_predict_raises keypoints s f data e :
  predict_fn (obj s) = Some f ->
  predicted (trace (run_keypoint_pipeline keypoints s)) = [data] ->
  f data = Raises e ->
  out (run_keypoint_pipeline keypoints s) = Raises e /\
  current_classification (obj (final (run_keypoint_pipeline keypoints s)))
  = current_classification (obj s).
Proof.
  intros Hp. revert Hp.
  py_cases; intros Hp Hcall Hret; try discriminate; simplify_eq;
    split; congruence.
Qed.

(** Two records of the same call agree on what it returned. *)
Ltac same_call :=
  repeat match goal with
  | H1 : ?x = Returns ?a, H2 : ?x = Returns ?b |- _ =>
      first [ constr_eq a b; clear H2
            | assert (a = b) by congruence; subst ]
  | H1 : ?x = Raises _, H2 : ?x = Returns _ |- _ => congruence
  | H1 : ?x = Some ?a, H2 : ?x = Some ?b |- _ =>
      first [ constr_eq a b; clear H2
            | assert (a = b) by congruence; subst ]
  | H1 : ?x = None, H2 : ?x = Some _ |- _ => congruence
  end.

(** C8. An observation with missing or empty landmarks that arrives while
    the window is full leaves the window as it was and still starts the
    assemble, transform, predict stage on that unchanged window; when the
    collaborators return and a prediction function is configured, the
    whole pass runs (assemble, serialize, transform, predict, in that
    order) and the classification is computed again. *)
Theorem dropped_observation_reclassifies_full_window
    (keypoints : gmap string (list Landmarks)) (s : St MLFlowClient) :
  dropped keypoints ->
  full (obj s) ->
  let r := run_keypoint_pipeline keypoints s in
  let name := "sequence-" +:+ py_str (time_time_ns (clock_reads s)) in
  window (obj (final r)) = window (obj s) /\
  stage_ran (trace r) /\
  assembled (trace r) = [window (obj s)] /\
  (forall seq sd tr dm f label,
     generate_blaze_pose_frames_from_sequence name (window (obj s)) false
     = Returns seq ->
     serialize seq = Returns sd ->
     transformer (obj s) = Some tr ->
     transform tr sd (input_columns (obj s)) = Returns dm ->
     predict_fn (obj s) = Some f ->
     f (fst dm) = Returns label ->
     trace r
     = [Call_generate_blaze_pose_frames name (window (obj s)) false;
        Call_serialize seq;
        Call_transform sd (input_columns (obj s));
        Call_predict_fn (fst dm)] /\
     current_classification (obj (final r)) = Some (py_bool label) /\
     out r = Returns PyNone).
Proof.
  intros Hd Hfull. cbn zeta.
  unfold run_keypoint_pipeline.
  rewrite (bind_returns _ _ _ _ _ _ (update_dropped keypoints s Hd)).
  unfold full, window, stage_ran in *. revert Hfull.
  py_cases; intros Hfull; try contradiction;
    (split; [reflexivity |]); (split; [reflexivity |]);
    (split; [reflexivity |]);
    intros seq sd tr dm f label Hg Hs Ht Htr Hp Hf; same_call;
    repeat split; congruence.
Qed.

(** C9. Once the current classification is set, no sequence of method
    calls on the client makes it [None] again; the frame-update step
    leaves it alone, and a pipeline step that does not reach the
    prediction function (the window is not full, the observation is
    dropped while the window is not full, or the step stops earlier)
    leaves it exactly as it was. *)
Theorem classification_is_never_reset
    (ms : list method_call) (s : St MLFlowClient) (b : bool) :
  current_classification (obj s) = Some b ->
  (exists b', current_classification (obj (invoke_all ms s)) = Some b') /\
  (forall keypoints,
     current_classification
       (obj (final (update_frame_data_from_js_client_keypoints keypoints s)))
     = Some b) /\
  (forall keypoints,
     predicted (trace (run_keypoint_pipeline keypoints s)) = [] ->
     current_classification (obj (final (run_keypoint_pipeline keypoints s)))
     = Some b) /\
  (forall keypoints,
     ~ full (obj (final (update_frame_data_from_js_client_keypoints
                           keypoints s))) ->
     current_classification (obj (final (run_keypoint_pipeline keypoints s)))
     = Some b) /\
  (forall keypoints,
     dropped keypoints -> ~ full (obj s) ->
     current_classification (obj (final (run_keypoint_pipeline keypoints s)))
     = Some b).
Proof.
  intros Hb. split; [| split; [| split; [| split]]].
  - revert s b Hb. unfold invoke_all.
    induction ms as [| m ms IH]; intros s b Hb; cbn [fold_left].
    + eauto.
    + destruct m as [k | k]; cbn [invoke].
      * destruct (run_classification_stays_set k s b Hb) as [b' Hb'].
        exact (IH _ b' Hb').
      * apply (IH _ b). rewrite update_keeps_classification. exact Hb.
  - intros k. rewrite update_keeps_classification. exact Hb.
  - intros k Hk. rewrite (run_without_prediction k s Hk). exact Hb.
  - intros k Hk. destruct (run_not_full k s Hk) as [_ ->]. exact Hb.
  - intros k Hd Hnf.
    assert (Hk : ~ full (obj (final
               (update_frame_data_from_js_client_keypoints k s)))).
    { rewrite (update_dropped k s Hd). exact Hnf. }
    destruct (run_not_full k s Hk) as [_ ->]. exact Hb.
Qed.

(** C2 (as the code has it). A failure raised inside the prediction
    function is not turned into a failure signal: it leaves the pipeline
    step and the handler as the same exception.  For that window no
    actuator call is made and no event is emitted; the session keeps its
    client, with the frame of the observation buffered, the current
    classification and the prediction function as they were, and the
    client still well formed, so the next observation is processed from
    that state. *)
Theorem predict_failure_propagates
    (payload : gmap string (list Landmarks))
    (app : St (PoserApp MLFlowClient)) (client : MLFlowClient)
    (f : Data -> outcome pyval) (data : Data) (e : exn) :
  poser_client (obj app) = Some client ->
  predict_fn client = Some f ->
  predicted (trace (handle_keypoints payload app)) = [data] ->
  f data = Raises e ->
  let h := handle_keypoints payload app in
  out (run_keypoint_pipeline payload (pipeline_entry app client)) = Raises e /\
  out h = Raises e /\
  actuations (trace h) = [] /\
  emitted (trace h) = [] /\
  exists client',
    poser_client (obj (final h)) = Some client' /\
    frames client'
    = frames (obj (final (update_frame_data_from_js_client_keypoints payload
                            (pipeline_entry app client)))) /\
    current_classification client' = current_classification client /\
    predict_fn client' = Some f /\
    (wf client -> wf client').
Proof.
  intros Hc Hp Hcall Hf. cbn zeta.
  destruct (handle_keypoints_bound_is_silent payload app client Hc)
    as (Htr & Hem & Hact).
  rewrite Htr in Hcall.
  destruct (run_predict_raises payload (pipeline_entry app client) f data e
              Hp Hcall Hf) as [Hout Hcc].
  destruct (run_keeps_configuration payload (pipeline_entry app client))
    as (_ & _ & _ & Hpf & _ & Hfr).
  split; [exact Hout |].
  rewrite (handle_keypoints_bound payload app client Hc) in *.
  cbn [out final trace obj poser_client]. rewrite Hout.
  split; [reflexivity |]. split; [exact Hact |]. split; [exact Hem |].
  eexists. split; [reflexivity |].
  split; [exact Hfr |]. split; [exact Hcc |].
  split; [rewrite Hpf; exact Hp |].
  intros Hwf. apply wf_run. exact Hwf.
Qed.

(** X29. For any client class: when the pipeline step reports a truthy
    result and a classification is present, the actuator is bound and
    answers, and [1.0 / speed] is defined, the handler adds exactly one
    actuator send/receive and then exactly one classification event for
    the observation, carrying the current classification, the nanosecond
    clock reading as a string, the processing time, and 1 divided by the
    processing time, with the actuator's answer; then it returns. *)
Theorem handler_emits_one_event_after_acknowledgement `{KeypointClient C}
    (payload : gmap string (list Landmarks)) (app : St (PoserApp C))
    (c : C) (device : Actuator) (results : pyval) (rate : Float)
    (ack : Ack) :
  let r := client_run_keypoint_pipeline payload (pipeline_entry app c) in
  let speed :=
    fsub (time_time (clock_reads (final r))) (time_time (clock_reads app)) in
  let t := time_time_ns (S (clock_reads (final r))) in
  poser_client (obj app) = Some c ->
  actuator (obj app) = Some device ->
  out r = Returns results ->
  py_bool results = true ->
  client_current_classification (obj (final r)) <> PyNone ->
  fdiv_one speed = Returns rate ->
  send device "a" = Returns tt ->
  receive device = Returns ack ->
  trace (handle_keypoints payload app)
  = trace r ++
    [Call_send "a"; Call_receive;
     Emit "frame_result"
       (ClassificationResult
          (client_current_classification (obj (final r)))
          (py_str t) speed rate ack)] /\
  out (handle_keypoints payload app) = Returns tt.
Proof.
  intros r speed t Hc Hdev Hout Htruthy Hcls Hrate Hsend Hrecv.
  subst r speed t. unfold pipeline_entry in *.
  unfold handle_keypoints, on_poser_client, emit, time, time_ns, tick,
    get_self, call, attr, record, lift_outcome, bind, ret.
  cbn. rewrite Hc. cbn. rewrite Hc. cbn.
  destruct (client_run_keypoint_pipeline payload
              {| obj := c; clock_reads := S (clock_reads app) |})
    as [s1 t1 o1] eqn:Hr.
  cbn in *. subst o1. cbn. rewrite Htruthy. cbn.
  destruct (client_current_classification (obj s1)) eqn:Hv;
    [contradiction | | |];
    cbn; rewrite Hrate; cbn; rewrite Hdev; cbn; rewrite Hsend; cbn;
    rewrite Hrecv; cbn; rewrite ?app_nil_r; split; reflexivity.
Qed.

(** ** Further properties of [MLFlowClient] *)

Lemma update_final keypoints s :
  final (update_frame_data_from_js_client_keypoints keypoints s)
  = match offered_frame (obj s) keypoints with
    | Some f =>
        mkSt (with_frames (deque.append f (frames (obj s))) (obj s))
             (clock_reads s)
    | None => s
    end.
Proof.
  unfold offered_frame. py_cases; reflexivity.
Qed.

Lemma offer_all_any obs :
  forall c clock,
    wf c ->
    let c' := obj (offer_all obs (mkSt c clock)) in
    wf c' /\
    capacity c' = capacity c /\
    mpc c' = mpc c /\
    window c'
    = last_n (capacity c) (window c ++ omap (offered_frame c) obs).
Proof.
  unfold last_n.
  induction obs as [| o obs IH]; intros c clock Hwf.
  - cbn. split; [exact Hwf |]. split; [reflexivity |]. split; [reflexivity |].
    rewrite app_nil_r.
    replace (length (window c) - capacity c) with 0 by (destruct Hwf; lia).
    reflexivity.
  - cbn [offer_all omap list_omap]. rewrite update_final. cbn [obj].
    destruct (offered_frame c o) as [f |] eqn:Hf.
    + cbn [obj clock_reads].
      set (c1 := with_frames (deque.append f (frames c)) c).
      assert (Hwf1 : wf c1) by (apply wf_append; exact Hwf).
      destruct (IH c1 clock Hwf1) as (Hwf' & Hcap' & Hmpc' & Hwin).
      assert (Hcap : capacity c1 = capacity c) by reflexivity.
      assert (Hsame : omap (offered_frame c1) obs = omap (offered_frame c) obs)
        by reflexivity.
      split; [exact Hwf' |]. split; [rewrite <- Hcap; exact Hcap' |].
      split; [exact Hmpc' |].
      cbn zeta in Hwin. rewrite Hwin, Hsame.
      assert (Hw1 : window c1
                    = drop (length (window c ++ [f]) - capacity c)
                        (window c ++ [f])).
      { unfold window, c1. cbn. destruct Hwf as [_ Hm Hl].
        unfold window in Hl. rewrite <- Hm in *.
        apply deque_items_append. exact Hl. }
      rewrite Hcap, Hw1.
      apply drop_excess_step. destruct Hwf; assumption.
    + exact (IH c clock Hwf).
Qed.

(** X1. Whatever observations a well-formed client is offered (valid,
    dropped, or failing in normalisation), its window afterwards is the
    last [capacity] frames of the old window followed by the frames of the
    observations that normalised, in arrival order; the client stays well
    formed. *)
Theorem window_is_last_frames_of_any_stream
    (c : MLFlowClient) (clock : nat)
    (obs : list (gmap string (list Landmarks))) :
  wf c ->
  wf (obj (offer_all obs (mkSt c clock))) /\
  window (obj (offer_all obs (mkSt c clock)))
  = last_n (capacity c) (window c ++ omap (offered_frame c) obs).
Proof.
  intros Hwf.
  destruct (offer_all_any obs c clock Hwf) as (H1 & _ & _ & H2).
  split; assumption.
Qed.

(** X2. When the observation carries a pose but the client has no
    pose-estimation collaborator, or normalising the pose raises, the
    frame-update step and the pipeline step end with that exception, the
    client is left exactly as it was, and the stage does not run. *)
Theorem normalisation_failure_leaves_client
    (keypoints : gmap string (list Landmarks)) (s : St MLFlowClient)
    (pose : Landmarks) (rest : list Landmarks) :
  keypoints !! "landmarks" = Some (pose :: rest) ->
  let u := update_frame_data_from_js_client_keypoints keypoints s in
  let r := run_keypoint_pipeline keypoints s in
  (mpc (obj s) = None ->
   out u = Raises (AttributeError "serialize_pose_landmarks") /\
   out r = Raises (AttributeError "serialize_pose_landmarks") /\
   final r = s /\ trace r = []) /\
  (forall client e,
     mpc (obj s) = Some client ->
     serialize_pose_landmarks client pose = Raises e ->
     out u = Raises e /\ out r = Raises e /\ final r = s /\
     trace r = [Call_serialize_pose_landmarks pose]).
Proof.
  intros Hk. cbn zeta. split.
  - intros Hm. unfold_py. rewrite Hk. cbn. rewrite Hm. cbn.
    repeat split; reflexivity.
  - intros client e Hm He. unfold_py. rewrite Hk. cbn. rewrite Hm. cbn.
    rewrite He. cbn. repeat split; reflexivity.
Qed.

(** X3. A client built without a data transformer cannot classify: when
    the window is full after the observation was offered, the pipeline
    step ends with an exception, never reaches the transformer or the
    prediction function, keeps the frame it buffered and leaves the
    current classification alone; when the assembler and the serializer
    return, the exception is the [AttributeError] of calling [transform]
    on [None]. *)
Theorem missing_transformer_raises_on_full_window
    (keypoints : gmap string (list Landmarks)) (s : St MLFlowClient) :
  transformer (obj s) = None ->
  let u := update_frame_data_from_js_client_keypoints keypoints s in
  let r := run_keypoint_pipeline keypoints s in
  full (obj (final u)) ->
  (exists e, out r = Raises e) /\
  transformed (trace r) = [] /\
  predicted (trace r) = [] /\
  frames (obj (final r)) = frames (obj (final u)) /\
  current_classification (obj (final r)) = current_classification (obj s) /\
  (forall fr seq sd,
     out u = Returns fr ->
     generate_blaze_pose_frames_from_sequence
       ("sequence-" +:+ py_str (time_time_ns (clock_reads s)))
       (window (obj (final u))) false = Returns seq ->
     serialize seq = Returns sd ->
     out r = Raises (AttributeError "transform")).
Proof.
  intros Ht. cbn zeta. unfold full, window. revert Ht.
  py_cases; intros Ht Hfull; try congruence;
    (split; [eauto |]); repeat (split; [reflexivity |]);
    intros fr seq sd Hu Hg Hs; try discriminate; same_call; try congruence.
Qed.

(** X4. With [frame_window = 0] the deque holds nothing: the window stays
    empty whatever is offered, and since an empty window has the length
    [frame_window], every observation whose update returns starts the
    stage on the empty sequence. *)
Theorem zero_capacity_always_classifies_nothing
    (keypoints : gmap string (list Landmarks)) (s : St MLFlowClient) :
  wf (obj s) ->
  frame_window (obj s) = 0%Z ->
  let u := update_frame_data_from_js_client_keypoints keypoints s in
  let r := run_keypoint_pipeline keypoints s in
  window (obj (final u)) = [] /\
  window (obj (final r)) = [] /\
  ((exists fr, out u = Returns fr) -> assembled (trace r) = [[]]).
Proof.
  intros Hwf Hfw. cbn zeta.
  assert (Hcap : capacity (obj s) = 0) by (unfold capacity; rewrite Hfw; reflexivity).
  assert (Hw0 : window (obj s) = []).
  { destruct Hwf as [_ _ Hl]. rewrite Hcap in Hl.
    destruct (window (obj s)); [reflexivity | cbn in Hl; lia]. }
  assert (Hu : window (obj (final
                 (update_frame_data_from_js_client_keypoints keypoints s))) = []).
  { rewrite update_final. destruct (offered_frame (obj s) keypoints) as [f |].
    - unfold window in *. cbn. unfold deque.append.
      destruct Hwf as [_ Hm _]. rewrite Hm, Hcap, Hw0. cbn. reflexivity.
    - exact Hw0. }
  split; [exact Hu |].
  destruct (run_keeps_configuration keypoints s) as (_ & _ & _ & _ & _ & Hfr).
  split; [unfold window in *; rewrite Hfr; exact Hu |].
  intros Hret.
  assert (Hfull : full (obj (final
                    (update_frame_data_from_js_client_keypoints keypoints s)))).
  { unfold full, deque.len. unfold window in Hu. rewrite Hu.
    destruct (update_keeps_configuration keypoints s) as (Hf & _).
    rewrite Hf, Hfw. reflexivity. }
  revert Hret Hfull Hu. unfold full, window.
  py_cases; intros [fr Hret] Hfull Hu; try discriminate; try contradiction;
    cbn in *; rewrite ?Hu; try reflexivity.
Qed.

(** X5. No sequence of method calls changes the configuration of a
    client (capacity, collaborators, prediction function, input columns),
    and a well-formed client stays well formed: its window never holds
    more frames than its capacity. *)
Theorem method_calls_keep_client_configuration
    (ms : list method_call) (s : St MLFlowClient) :
  let c' := obj (invoke_all ms s) in
  frame_window c' = frame_window (obj s) /\
  mpc c' = mpc (obj s) /\
  transformer c' = transformer (obj s) /\
  predict_fn c' = predict_fn (obj s) /\
  input_columns c' = input_columns (obj s) /\
  (wf (obj s) -> wf c' /\ length (window c') <= capacity (obj s)).
Proof.
  cbn zeta. unfold invoke_all. revert s.
  induction ms as [| m ms IH]; intros s; cbn [fold_left].
  - do 5 (split; [reflexivity |]). intros Hwf.
    split; [exact Hwf | destruct Hwf; assumption].
  - destruct (IH (invoke m s)) as (Hf & Hm & Ht & Hp & Hi & Hw).
    assert (Hstep :
      frame_window (obj (invoke m s)) = frame_window (obj s) /\
      mpc (obj (invoke m s)) = mpc (obj s) /\
      transformer (obj (invoke m s)) = transformer (obj s) /\
      predict_fn (obj (invoke m s)) = predict_fn (obj s) /\
      input_columns (obj (invoke m s)) = input_columns (obj s) /\
      (wf (obj s) -> wf (obj (invoke m s)))).
    { destruct m as [k | k]; cbn [invoke].
      - destruct (run_keeps_configuration k s) as (a & b & c & d & e & _).
        do 5 (split; [assumption |]). apply wf_run.
      - destruct (update_keeps_configuration k s) as (a & b & c & d & e & _).
        do 5 (split; [assumption |]). apply wf_update. }
    destruct Hstep as (Hf1 & Hm1 & Ht1 & Hp1 & Hi1 & Hw1).
    do 5 (split; [congruence |]). intros Hwf.
    destruct (Hw (Hw1 Hwf)) as [Hwf' Hlen].
    split; [exact Hwf' |].
    unfold capacity in *. rewrite <- Hf1. exact Hlen.
Qed.

(** X6. [run_keypoint_pipeline] hands back [None] whenever it returns, so
    with an [MLFlowClient] bound the guard of [handle_keypoints] is never
    satisfied: the handler emits no event and makes no actuator call for
    any observation; it returns normally exactly when the pipeline step
    does, and raises the step's exception otherwise. *)
Theorem mlflow_client_handler_is_silent
    (payload : gmap string (list Landmarks))
    (app : St (PoserApp MLFlowClient)) (client : MLFlowClient) :
  poser_client (obj app) = Some client ->
  let r := run_keypoint_pipeline payload (pipeline_entry app client) in
  let h := handle_keypoints payload app in
  (forall v, out r = Returns v -> v = PyNone) /\
  emitted (trace h) = [] /\
  actuations (trace h) = [] /\
  trace h = trace r /\
  (forall v, out r = Returns v -> out h = Returns tt) /\
  (forall e, out r = Raises e -> out h = Raises e) /\
  poser_client (obj (final h)) = Some (obj (final r)) /\
  actuator (obj (final h)) = actuator (obj app).
Proof.
  intros Hc. cbn zeta.
  destruct (handle_keypoints_bound_is_silent payload app client Hc)
    as (Htr & Hem & Hact).
  split; [intros v; apply run_returns_None |].
  split; [exact Hem |]. split; [exact Hact |]. split; [exact Htr |].
  rewrite (handle_keypoints_bound payload app client Hc).
  cbn [out final trace obj poser_client actuator].
  split; [intros v ->; reflexivity |].
  split; [intros e ->; reflexivity |].
  split; reflexivity.
Qed.

(** ** Further properties of the handler and of [PoserApp] *)

Ltac unfold_handler :=
  unfold handle_keypoints, on_poser_client, emit, time, time_ns, tick,
    get_self, call, attr, record, lift_outcome, bind, ret, raise,
    pipeline_entry in *.

(** X7. For any client class: an exception of the pipeline step leaves
    the handler unchanged, and a step that returns a falsy result, or
    leaves no classification, makes the handler return without adding
    anything to what the step did: no actuator call, no event. *)
Theorem handler_adds_nothing_without_result `{KeypointClient C}
    (payload : gmap string (list Landmarks)) (app : St (PoserApp C))
    (c : C) :
  poser_client (obj app) = Some c ->
  let r := client_run_keypoint_pipeline payload (pipeline_entry app c) in
  let h := handle_keypoints payload app in
  (forall e, out r = Raises e -> out h = Raises e /\ trace h = trace r) /\
  (forall results,
     out r = Returns results ->
     py_bool results = false \/
     client_current_classification (obj (final r)) = PyNone ->
     out h = Returns tt /\ trace h = trace r /\
     poser_client (obj (final h)) = Some (obj (final r))).
Proof.
  intros Hc. cbn zeta. unfold_handler.
  cbn. rewrite Hc. cbn. rewrite Hc. cbn.
  destruct (client_run_keypoint_pipeline payload
              {| obj := c; clock_reads := S (clock_reads app) |})
    as [s1 t1 o1] eqn:Hr.
  cbn. split.
  - intros e ->. cbn. split; reflexivity.
  - intros results -> Hno. cbn.
    destruct (py_bool results) eqn:Htruthy; cbn.
    + destruct Hno as [Hno | Hno]; [discriminate |].
      rewrite Hno. cbn. rewrite !app_nil_r. repeat split; reflexivity.
    + rewrite !app_nil_r. repeat split; reflexivity.
Qed.

(** X8. For any client class, when the step reports a truthy result and
    a classification is present: if [1.0 / speed] raises (a processing time
    of zero), or no actuator was set, the handler ends with that exception
    before any actuator call and without emitting an event. *)
Theorem handler_fails_before_actuation `{KeypointClient C}
    (payload : gmap string (list Landmarks)) (app : St (PoserApp C))
    (c : C) (results : pyval) :
  poser_client (obj app) = Some c ->
  let r := client_run_keypoint_pipeline payload (pipeline_entry app c) in
  let h := handle_keypoints payload app in
  let speed :=
    fsub (time_time (clock_reads (final r))) (time_time (clock_reads app)) in
  out r = Returns results ->
  py_bool results = true ->
  client_current_classification (obj (final r)) <> PyNone ->
  (forall e, fdiv_one speed = Raises e ->
             out h = Raises e /\ trace h = trace r) /\
  (forall rate, fdiv_one speed = Returns rate ->
                actuator (obj app) = None ->
                out h = Raises (AttributeError "actuator") /\
                trace h = trace r).
Proof.
  intros Hc. cbn zeta. unfold_handler.
  cbn. rewrite Hc. cbn. rewrite Hc. cbn.
  destruct (client_run_keypoint_pipeline payload
              {| obj := c; clock_reads := S (clock_reads app) |})
    as [s1 t1 o1] eqn:Hr.
  cbn. intros -> Htruthy Hcls. cbn. rewrite Htruthy. cbn.
  split.
  - intros e He.
    destruct (client_current_classification (obj s1)); [contradiction | | |];
      cbn; rewrite He; cbn; rewrite !app_nil_r; split; reflexivity.
  - intros rate Hrate Hact.
    destruct (client_current_classification (obj s1)); [contradiction | | |];
      cbn; rewrite Hrate; cbn; rewrite Hact; cbn; rewrite !app_nil_r;
      split; reflexivity.
Qed.

(** X9. For any client class, a classification event is emitted only
    after the actuator has acknowledged: when [send] raises, [receive] is
    not called; when [receive] raises, both calls were made; in either
    case the handler ends with that exception and emits no event. *)
Theorem no_event_without_acknowledgement `{KeypointClient C}
    (payload : gmap string (list Landmarks)) (app : St (PoserApp C))
    (c : C) (results : pyval) (device : Actuator) (rate : Float) :
  poser_client (obj app) = Some c ->
  actuator (obj app) = Some device ->
  let r := client_run_keypoint_pipeline payload (pipeline_entry app c) in
  let h := handle_keypoints payload app in
  let speed :=
    fsub (time_time (clock_reads (final r))) (time_time (clock_reads app)) in
  out r = Returns results ->
  py_bool results = true ->
  client_current_classification (obj (final r)) <> PyNone ->
  fdiv_one speed = Returns rate ->
  (forall e, send device "a" = Raises e ->
             out h = Raises e /\ trace h = trace r ++ [Call_send "a"]) /\
  (forall e, send device "a" = Returns tt -> receive device = Raises e ->
             out h = Raises e /\
             trace h = trace r ++ [Call_send "a"; Call_receive]).
Proof.
  intros Hc Hdev. cbn zeta. unfold_handler.
  cbn. rewrite Hc. cbn. rewrite Hc. cbn.
  destruct (client_run_keypoint_pipeline payload
              {| obj := c; clock_reads := S (clock_reads app) |})
    as [s1 t1 o1] eqn:Hr.
  cbn. intros -> Htruthy Hcls Hrate. cbn. rewrite Htruthy. cbn.
  split.
  - intros e He.
    destruct (client_current_classification (obj s1)); [contradiction | | |];
      cbn; rewrite Hrate; cbn; rewrite Hdev; cbn; rewrite He; cbn;
      rewrite ?app_nil_r; split; reflexivity.
  - intros e Hs He.
    destruct (client_current_classification (obj s1)); [contradiction | | |];
      cbn; rewrite Hrate; cbn; rewrite Hdev; cbn; rewrite Hs; cbn;
      rewrite He; cbn; rewrite ?app_nil_r; split; reflexivity.
Qed.

(** X10. [PoserApp.actuate] sends the data and then asks for the answer:
    without an actuator it raises [AttributeError] and calls nobody; when
    [send] raises, [receive] is not called; otherwise both calls are made
    in that order and the result is whatever [receive] gives.  The
    application object is never changed. *)
Theorem actuate_sends_then_receives {C : Type}
    (data : string) (app : St (PoserApp C)) :
  let a := actuate data app in
  final a = app /\
  (actuator (obj app) = None ->
   out a = Raises (AttributeError "actuator") /\ trace a = []) /\
  (forall device e,
     actuator (obj app) = Some device -> send device data = Raises e ->
     out a = Raises e /\ trace a = [Call_send data]) /\
  (forall device,
     actuator (obj app) = Some device -> send device data = Returns tt ->
     out a = receive device /\ trace a = [Call_send data; Call_receive]).
Proof.
  cbn zeta. unfold actuate, get_self, call, attr, record, lift_outcome,
    bind, ret, raise.
  cbn. destruct (actuator (obj app)) as [device |] eqn:Hdev; cbn.
  - destruct (send device data) as [[] | e] eqn:Hs; cbn.
    + destruct (receive device) as [ack | e] eqn:Hr; cbn;
        (split; [reflexivity |]); (split; [discriminate |]);
        split; intros d; intros; simplify_eq; try congruence;
        split; congruence.
    + (split; [reflexivity |]); (split; [discriminate |]);
        split; intros d; intros; simplify_eq; try congruence;
        split; congruence.
  - split; [reflexivity |]. split; [split; reflexivity |].
    split; intros; discriminate.
Qed.

(** X11. [set_actuator] binds the device only for the name
    ["bluetooth_device"]; any other name leaves the application as it was,
    so an application that was only given another name still has no
    actuator.  [set_poser_client] binds the client and keeps the
    actuator. *)
Theorem set_actuator_knows_one_name {C : Type}
    (device : Actuator) (name : string) (client : C) (app : PoserApp C) :
  (name = "bluetooth_device" ->
   actuator (set_actuator device name app) = Some device /\
   poser_client (set_actuator device name app) = poser_client app) /\
  (name <> "bluetooth_device" -> set_actuator device name app = app) /\
  (name <> "bluetooth_device" ->
   actuator (set_actuator device name (PoserApp_init (C := C))) = None) /\
  poser_client (set_poser_client client app) = Some client /\
  actuator (set_poser_client client app) = actuator app.
Proof.
  unfold set_actuator, set_poser_client, PoserApp_init.
  repeat split; intros; case_decide; try congruence; reflexivity.
Qed.

(** X12. [MLFlowClient.__init__] raises [OverflowError] for a
    [frame_window] that does not fit [Py_ssize_t], [ValueError] for a
    negative one that does, and [KeyError] when [input_example] has no
    ["columns"] entry; in every other case it returns, and the client it
    returns is well formed, with an empty window of capacity
    [frame_window], no classification, the given collaborators and the
    input columns of [input_example]. *)
Theorem init_builds_empty_client
    (fw : Z) (m : option MediaPipeClient) (tm : option TrainedModel)
    (tr : option SequenceTransformer) (pf : option (Data -> outcome pyval))
    (ie : gmap string (list string)) :
  let built := MLFlowClient_init fw m tm tr pf ie in
  ((fw < - PY_SSIZE_T_MAX - 1 \/ PY_SSIZE_T_MAX < fw)%Z ->
   built
   = Raises (OverflowError "Python int too large to convert to C ssize_t")) /\
  ((- PY_SSIZE_T_MAX - 1 <= fw < 0)%Z ->
   built = Raises (ValueError "maxlen must be non-negative")) /\
  ((0 <= fw <= PY_SSIZE_T_MAX)%Z -> ie !! "columns" = None ->
   built = Raises (KeyError "columns")) /\
  (forall cols,
     (0 <= fw <= PY_SSIZE_T_MAX)%Z -> ie !! "columns" = Some cols ->
     exists c, built = Returns c) /\
  (forall c,
     built = Returns c ->
     (0 <= fw <= PY_SSIZE_T_MAX)%Z /\ wf c /\ window c = [] /\
     capacity c = Z.to_nat fw /\ frame_window c = fw /\
     current_classification c = None /\
     ie !! "columns" = Some (input_columns c) /\
     mpc c = m /\ transformer c = tr /\ predict_fn c = pf).
Proof.
  cbn zeta. unfold MLFlowClient_init. split; [| split; [| split; [| split]]].
  - intros Hout. case_decide; [reflexivity | lia].
  - intros Hneg. case_decide; [lia |]. case_decide; [reflexivity | lia].
  - intros Hpos Hk. case_decide; [lia |]. case_decide; [lia |].
    rewrite Hk. reflexivity.
  - intros cols Hpos Hk. case_decide; [lia |]. case_decide; [lia |].
    rewrite Hk. eexists. reflexivity.
  - intros c. case_decide; [discriminate |]. case_decide; [discriminate |].
    destruct (ie !! "columns") as [cols |] eqn:Hk; [| discriminate].
    intros [= <-]. split; [lia |].
    split; [split; unfold capacity, window; cbn; lia |].
    repeat split; reflexivity.
Qed.

(** X13. A freshly built client becomes full exactly when as many
    observations have normalised as its window holds: offered any stream
    of observations, its window is full if and only if at least
    [frame_window] of them produced a frame. *)
Theorem fresh_client_fills_after_capacity_frames
    (fw : Z) (m : option MediaPipeClient) (tm : option TrainedModel)
    (tr : option SequenceTransformer) (pf : option (Data -> outcome pyval))
    (ie : gmap string (list string)) (c : MLFlowClient) (clock : nat)
    (obs : list (gmap string (list Landmarks))) :
  MLFlowClient_init fw m tm tr pf ie = Returns c ->
  let c' := obj (offer_all obs (mkSt c clock)) in
  let produced := omap (offered_frame c) obs in
  length (window c') = Nat.min (Z.to_nat fw) (length produced) /\
  (full c' <-> Z.to_nat fw <= length produced).
Proof.
  intros Hinit. cbn zeta.
  destruct (wf_init _ _ _ _ _ _ _ Hinit) as (Hwf & Hw0 & Hfw & _).
  destruct (offer_all_any obs c clock Hwf) as (Hwf' & Hcap & _ & Hwin).
  cbn zeta in *. rewrite Hw0 in Hwin. cbn [app] in Hwin.
  unfold last_n in Hwin.
  assert (Hc : capacity c = Z.to_nat fw) by (unfold capacity; rewrite Hfw; reflexivity).
  rewrite Hc in Hwin.
  assert (Hlen : length (window (obj (offer_all obs (mkSt c clock))))
                 = Nat.min (Z.to_nat fw) (length (omap (offered_frame c) obs))).
  { rewrite Hwin, length_drop. lia. }
  split; [exact Hlen |].
  unfold full, deque.len. fold (window (obj (offer_all obs (mkSt c clock)))).
  rewrite Hlen.
  assert (Hfw' : frame_window (obj (offer_all obs (mkSt c clock))) = fw).
  { unfold capacity in Hcap. destruct Hwf' as [Hn' _ _].
    destruct Hwf as [Hn _ _]. rewrite <- Hfw. lia. }
  rewrite Hfw'. destruct Hwf as [Hn _ _]. rewrite Hfw in Hn. lia.
Qed.

(** ** The frame listener and the model route *)

(** X14. [handle_frame] never answers with a classification.  Without a
    client it emits exactly the "No model set" error and returns.  With
    a client it always ends with an exception: the [AttributeError] of a
    client class that has no [convert_base64_to_image_array] (before
    anything else happens), the exception the conversion raised, or, once
    the image is decoded and the clock read, the [AttributeError] of
    [pc.run_frame_pipeline], which [PoserApp] does not define.  It never
    adds an event of its own. *)
Theorem handle_frame_never_answers {C : Type}
    {KC : KeypointClient C} {FC : FrameClient C}
    (payload : string) (app : St (PoserApp C)) :
  let h := handle_frame payload app in
  (poser_client (obj app) = None ->
   trace h
   = [Pipeline_event (Emit "frame_result" (ErrorResult "No model set"))] /\
   out h = Returns tt /\ final h = app) /\
  (forall c,
     poser_client (obj app) = Some c ->
     (client_convert_base64_to_image_array = None ->
      out h = Raises (AttributeError "convert_base64_to_image_array") /\
      trace h = [] /\ final h = app) /\
     (forall convert,
        client_convert_base64_to_image_array = Some convert ->
        let r := convert payload (mkSt c (clock_reads app)) in
        trace h = Pipeline_event <$> trace r /\
        (forall e, out r = Raises e -> out h = Raises e) /\
        (forall image,
           out r = Returns image ->
           out h = Raises (AttributeError "run_frame_pipeline") /\
           clock_reads (final h) = S (clock_reads (final r)) /\
           poser_client (obj (final h)) = Some (obj (final r))))).
Proof.
  cbn zeta.
  unfold handle_frame, PoserApp_run_frame_pipeline, relabel, on_poser_client,
    emit, time, time_ns, tick, get_self, call, attr, record, lift_outcome,
    bind, ret, raise.
  cbn. split.
  - intros Hc. rewrite Hc. cbn. repeat split; reflexivity.
  - intros c Hc. rewrite Hc. cbn. split.
    + intros Hm. rewrite Hm. cbn. repeat split; reflexivity.
    + intros convert Hm. rewrite Hm. cbn. rewrite Hc. cbn.
      destruct (convert payload {| obj := c; clock_reads := clock_reads app |})
        as [s1 t1 o1] eqn:Hr.
      cbn. destruct o1 as [image | e]; cbn.
      * rewrite !app_nil_r.
        split; [reflexivity |]. split; [intros e; discriminate |].
        intros image' _. repeat split; reflexivity.
      * split; [reflexivity |]. split; [intros e' [= ->]; reflexivity |].
        intros image; discriminate.
Qed.

(** X15. [set_model]: a request without a ["filename"] entry is answered
    with the error "No filename" and status 400 and changes nothing; when
    loading the pickle raises, the exception leaves the route and the
    module-level objects are as before, so a client bound earlier stays
    bound; when every collaborator returns, the answer names the file, the
    trained model carries the model and the transformer, the client built
    with a window of 10 frames is bound and the actuator is set. *)
Theorem set_model_outcomes {C : Type} {RC : RouteCollaborators C}
    (data : gmap string string) (srv : Server C) :
  let r := set_model data srv in
  trace r = [] /\
  (data !! "filename" = None ->
   out r = Returns (Error_response "No filename" 400) /\ final r = srv) /\
  (forall path e,
     data !! "filename" = Some path ->
     retrieve_model_from_pickle (model_location +:+ "/" +:+ path) = Raises e ->
     out r = Raises e /\ final r = srv) /\
  (forall path model model_data tm transformer tm' client device,
     data !! "filename" = Some path ->
     retrieve_model_from_pickle (model_location +:+ "/" +:+ path)
     = Returns (model, model_data) ->
     TrainedModel_set_model model model_data (trained_model srv) = Returns tm ->
     TenFrameFlatColumnAngleTransformer = Returns transformer ->
     TrainedModel_set_data_transformer transformer tm = Returns tm' ->
     PoserClient module_mpc tm' transformer 10 = Returns client ->
     BluetoothDevice = Returns device ->
     out r = Returns (Result_response
                        ("Server Ready: classifier set to " +:+ path +:+ ".")) /\
     poser_client (pc (final r)) = Some client /\
     actuator (pc (final r)) = Some device /\
     trained_model (final r) = tm').
Proof.
  cbn zeta. split; [| split; [| split]].
  - unfold set_model, get_state, modify, lift_outcome, bind, ret.
    cbn. repeat case_step; reflexivity.
  - intros Hk. unfold set_model. rewrite Hk. split; reflexivity.
  - intros path e Hk He.
    unfold set_model, get_state, modify, lift_outcome, bind, ret.
    rewrite Hk. cbn. rewrite He. split; reflexivity.
  - intros path model model_data tm transformer tm' client device
      Hk Ha Hb Hc Hd He Hf.
    unfold set_model, get_state, modify, lift_outcome, bind, ret.
    rewrite Hk. cbn. rewrite Ha. cbn. rewrite Hb. cbn. rewrite Hc. cbn.
    rewrite Hd. cbn. rewrite He. cbn. rewrite Hf. cbn.
    unfold set_actuator. case_decide; [| congruence].
    repeat split; reflexivity.
Qed.


(** X16. [set_model] is not atomic: when the client has been built but
    the actuator class raises, the exception leaves the route with the new
    client already bound and the trained model already updated, while the
    actuator is the one the application had before (none on a fresh
    application). *)
Theorem set_model_failing_actuator_keeps_new_client
    {C : Type} {RC : RouteCollaborators C}
    (data : gmap string string) (srv : Server C)
    (path : string) (model : Model) (model_data : ModelData)
    (tm tm' : TrainedModel) (transformer : SequenceTransformer)
    (client : C) (e : exn) :
  data !! "filename" = Some path ->
  retrieve_model_from_pickle (model_location +:+ "/" +:+ path)
  = Returns (model, model_data) ->
  TrainedModel_set_model model model_data (trained_model srv) = Returns tm ->
  TenFrameFlatColumnAngleTransformer = Returns transformer ->
  TrainedModel_set_data_transformer transformer tm = Returns tm' ->
  PoserClient module_mpc tm' transformer 10 = Returns client ->
  BluetoothDevice = Raises e ->
  let r := set_model data srv in
  out r = Raises e /\
  poser_client (pc (final r)) = Some client /\
  actuator (pc (final r)) = actuator (pc srv) /\
  trained_model (final r) = tm'.
Proof.
  intros Hk Ha Hb Hc Hd He Hf. cbn zeta.
  unfold set_model, get_state, modify, lift_outcome, bind, ret.
  rewrite Hk. cbn. rewrite Ha. cbn. rewrite Hb. cbn. rewrite Hc. cbn.
  rewrite Hd. cbn. rewrite He. cbn. rewrite Hf. cbn.
  repeat split; reflexivity.
Qed.

End PipelineFacts.

(** ** The merge service *)

Section MergeServiceFacts.

Import merge_service.

Context `{Externals}.

Lemma od_get_set {V} (k k' : string) (v : V) (d : odict V) :
  od_get k (od_set k' v d) = if decide (k = k') then Some v else od_get k d.
Proof.
  induction d as [|[k0 v0] d IH]; simpl.
  - repeat case_decide; congruence.
  - destruct (decide (k' = k0)) as [->|Hne]; simpl.
    + repeat case_decide; congruence.
    + rewrite IH. repeat case_decide; congruence.
Qed.

Lemma od_get_None {V} (k : string) (d : odict V) :
  od_get k d = None <-> k ∉ d.*1.
Proof.
  induction d as [|[k0 v0] d IH]; simpl.
  - split; [intros _; apply not_elem_of_nil | reflexivity].
  - case_decide as Hk.
    + subst. split; [discriminate | intros Hn; destruct Hn; left].
    + rewrite IH, not_elem_of_cons. tauto.
Qed.

(** Appending the examples of one label, one at a time. *)
Lemma append_examples (label : string) (examples old : list Clip)
    (m : gmap string (list Clip)) (k : string) :
  m !! label = Some old ->
  foldl (fun m example => alter (fun l => l ++ [example]) label m) m examples
    !! k
  = if decide (k = label) then Some (old ++ examples) else m !! k.
Proof.
  revert old m. induction examples as [|e examples IH]; intros old m Hm; simpl.
  - case_decide; [subst; rewrite Hm, app_nil_r|]; reflexivity.
  - rewrite (IH (old ++ [e])).
    + case_decide as Hk.
      * rewrite <- app_assoc. reflexivity.
      * rewrite lookup_alter_ne by congruence. reflexivity.
    + rewrite lookup_alter_eq, Hm. reflexivity.
Qed.

Lemma merge_label_lookup (m : gmap string (list Clip))
    (item : string * list Clip) (k : string) :
  merge_label m item !! k
  = if decide (k = item.1)
    then Some (default [] (m !! item.1) ++ item.2)
    else m !! k.
Proof.
  unfold merge_label.
  destruct (m !! item.1) as [[|c old]|] eqn:Hm; simpl.
  - rewrite (append_examples _ _ []) by apply lookup_insert_eq.
    case_decide; [reflexivity|]. rewrite lookup_insert_ne by congruence.
    reflexivity.
  - rewrite (append_examples _ _ (c :: old)) by exact Hm. reflexivity.
  - rewrite (append_examples _ _ []) by apply lookup_insert_eq.
    case_decide; [reflexivity|]. rewrite lookup_insert_ne by congruence.
    reflexivity.
Qed.

Lemma merge_labels_lookup (segmented_data : odict (list Clip))
    (m : gmap string (list Clip)) (k : string) :
  NoDup segmented_data.*1 ->
  foldl merge_label m segmented_data !! k
  = match od_get k segmented_data with
    | Some examples => Some (default [] (m !! k) ++ examples)
    | None => m !! k
    end.
Proof.
  revert m. induction segmented_data as [|[label examples] rest IH];
    intros m Hnd; simpl; [reflexivity|].
  apply NoDup_cons in Hnd as [Hnotin Hnd].
  rewrite IH by exact Hnd. rewrite merge_label_lookup. simpl.
  destruct (decide (k = label)) as [->|Hk].
  - apply od_get_None in Hnotin. simpl in Hnotin. rewrite Hnotin.
    reflexivity.
  - reflexivity.
Qed.

(** X17.  [merge_segmented_data] extends [merged_data] label by label:
    a label of the segmented data (a dict, so its keys are distinct) ends
    up with the clips it had before followed by the new ones in their
    order, and starts from the empty list when it was absent; every other
    label keeps its entry, and nothing else of the service changes. *)
Theorem merge_appends_per_label (segmented_data : odict (list Clip))
    (s : t) (label : string) :
  NoDup segmented_data.*1 ->
  merged_data (merge_segmented_data segmented_data s) !! label
  = match od_get label segmented_data with
    | Some examples => Some (default [] (merged_data s !! label) ++ examples)
    | None => merged_data s !! label
    end
  /\ annotation_video_map (merge_segmented_data segmented_data s)
     = annotation_video_map s
  /\ video_annotation_map (merge_segmented_data segmented_data s)
     = video_annotation_map s
  /\ output_keypoints_path (merge_segmented_data segmented_data s)
     = output_keypoints_path s
  /\ output_data_path (merge_segmented_data segmented_data s)
     = output_data_path s.
Proof.
  intros Hnd. split; [|repeat split].
  unfold merge_segmented_data. simpl. apply merge_labels_lookup, Hnd.
Qed.

(** X18.  A label that comes with no clips still gets an entry: after the
    merge it is a key of [merged_data], with the list it had before or the
    empty list. *)
Theorem merge_registers_empty_label (segmented_data : odict (list Clip))
    (s : t) (label : string) :
  NoDup segmented_data.*1 ->
  (label, []) ∈ segmented_data ->
  merged_data (merge_segmented_data segmented_data s) !! label
  = Some (default [] (merged_data s !! label)).
Proof.
  intros Hnd Hin. unfold merge_segmented_data. simpl.
  rewrite merge_labels_lookup by exact Hnd.
  assert (Hget : od_get label segmented_data = Some []).
  { clear -Hnd Hin. induction segmented_data as [|[k v] rest IH];
      [inversion Hin|].
    simpl. apply NoDup_cons in Hnd as [Hnotin Hnd].
    apply elem_of_cons in Hin as [Heq|Hin].
    - inversion Heq; subst. rewrite decide_True by reflexivity. reflexivity.
    - case_decide as Hk.
      + subst k. destruct Hnotin. apply list_elem_of_fmap.
        exists (label, []). split; [reflexivity | exact Hin].
      + apply IH; assumption. }
  rewrite Hget, app_nil_r. reflexivity.
Qed.

(** *** [generate_dataset_from_map] *)

Lemma segment_item_merged (segmented_data : gmap string (list Clip)) (s : t)
    (item : string * string) :
  segment_item (with_merged_data segmented_data s) item = segment_item s item.
Proof. reflexivity. Qed.

Lemma with_merged_data_same (s : t) : with_merged_data (merged_data s) s = s.
Proof. destruct s; reflexivity. Qed.

(** A run over a prefix of the items that the limit does not cut and
    whose collaborators return. *)
Lemma process_items_prefix (b : bool) (limit : option Z) (pre : odict string) :
  forall (segs : list (odict (list Clip))) (rest : odict string)
         (c : Z) (s : t) (w : world),
  (forall i, i < length pre -> Some (c + Z.of_nat i)%Z <> limit) ->
  Forall2 (fun item seg => segment_item s item = Done seg) pre segs ->
  (b = true ->
   forall now m, prepare_output (output_data_path s) m = true
                 /\ write_json (output_data_path s) now m = true) ->
  process_items limit b c (pre ++ rest) s w
  = process_items limit b (c + Z.of_nat (length pre)) rest
      (with_merged_data (merge_all (merged_data s) segs) s)
      (if b
       then mkWorld
              (written w
               ++ imap (fun i _ =>
                          (output_data_path s, time_ns_at (clock w + i),
                           merge_all (merged_data s) (take (S i) segs)))
                       segs)
              (clock w + length segs)
       else w).
Proof.
  induction pre as [|[annotation video] pre IH];
    intros segs rest c s w Hlim Hall Hw.
  - apply Forall2_nil_inv_l in Hall. subst segs. simpl.
    rewrite Z.add_0_r, with_merged_data_same.
    destruct b; [|reflexivity].
    rewrite app_nil_r, Nat.add_0_r. destruct w; reflexivity.
  - apply Forall2_cons_inv_l in Hall as (seg & segs' & Hseg & Hall & ->).
    simpl app. cbn [process_items].
    rewrite decide_False
      by (specialize (Hlim 0 ltac:(simpl; lia)); rewrite Z.add_0_r in Hlim;
          exact Hlim).
    unfold segment_item in Hseg. cbn [fst snd] in Hseg.
    destruct (load_annotation annotation) as [annotation_data|];
      [|discriminate].
    destruct (process_video _ _ _) as [video_data|]; [|discriminate].
    rewrite Hseg.
    assert (Hlim' : forall i, i < length pre ->
                      Some (c + 1 + Z.of_nat i)%Z <> limit).
    { intros i Hi. specialize (Hlim (S i) ltac:(simpl; lia)).
      replace (c + 1 + Z.of_nat i)%Z with (c + Z.of_nat (S i))%Z by lia.
      exact Hlim. }
    destruct b.
    + unfold write_merged_data_to_file.
      replace (output_data_path (merge_segmented_data seg s))
        with (output_data_path s) by reflexivity.
      rewrite (proj1 (Hw eq_refl (time_ns_at (clock w)) _)).
      rewrite (proj2 (Hw eq_refl _ _)).
      rewrite (IH segs' rest (c + 1)%Z (merge_segmented_data seg s) _
                 Hlim' Hall)
        by (intros _; exact (Hw eq_refl)).
      replace (c + 1 + Z.of_nat (length pre))%Z
        with (c + Z.of_nat (length ((annotation, video) :: pre)))%Z
        by (simpl; lia).
      f_equal; try reflexivity.
      cbn [written clock merged_data merge_segmented_data
             with_merged_data output_data_path length imap].
      f_equal; [|lia].
      rewrite <- app_assoc. f_equal. simpl. f_equal.
      * rewrite Nat.add_0_r. reflexivity.
      * apply imap_ext. intros i x _. simpl.
        replace (clock w + S i) with (S (clock w + i)) by lia.
        reflexivity.
    + rewrite (IH segs' rest (c + 1)%Z (merge_segmented_data seg s) _
                 Hlim' Hall) by discriminate.
      replace (c + 1 + Z.of_nat (length pre))%Z
        with (c + Z.of_nat (length ((annotation, video) :: pre)))%Z
        by (simpl; lia).
      reflexivity.
Qed.

Lemma process_items_stop (b : bool) (limit : option Z) (c : Z)
    (rest : odict string) (s : t) (w : world) :
  rest = [] \/ limit = Some c ->
  process_items limit b c rest s w = (s, w, Done (merged_data s)).
Proof.
  intros [-> | ->]; [reflexivity|].
  destruct rest as [|[annotation video] rest]; [reflexivity|].
  simpl. rewrite decide_True by reflexivity. reflexivity.
Qed.

Lemma processed_reaches (limit : option Z) (items : odict string) :
  (forall i, i < processed limit (length items) ->
     Some (0 + Z.of_nat i)%Z <> limit)
  /\ (drop (processed limit (length items)) items = []
      \/ limit = Some (0 + Z.of_nat (processed limit (length items)))%Z).
Proof.
  unfold processed. destruct limit as [l|].
  - case_decide as Hl.
    + split.
      * intros i Hi [= Heq]. lia.
      * destruct (decide (Z.to_nat l <= length items)) as [Hle|Hgt].
        -- right. f_equal. lia.
        -- left. apply drop_ge. lia.
    + split.
      * intros i Hi [= Heq]. lia.
      * left. apply drop_ge. lia.
  - split; [discriminate|]. left. apply drop_ge. lia.
Qed.

Lemma generate_run (b : bool) (limit : option Z) (s : t) (w : world)
    (segs : list (odict (list Clip))) :
  Forall2 (fun item seg => segment_item s item = Done seg)
    (take (processed limit (length (annotation_video_map s)))
       (annotation_video_map s))
    segs ->
  (b = true ->
   forall now m, prepare_output (output_data_path s) m = true
                 /\ write_json (output_data_path s) now m = true) ->
  generate_dataset_from_map limit b s w
  = (with_merged_data (merge_all (merged_data s) segs) s,
     (if b
      then mkWorld
             (written w
              ++ imap (fun i _ =>
                         (output_data_path s, time_ns_at (clock w + i),
                          merge_all (merged_data s) (take (S i) segs)))
                      segs)
             (clock w + length segs)
      else w),
     Done (merge_all (merged_data s) segs)).
Proof.
  intros Hall Hw. unfold generate_dataset_from_map.
  destruct (processed_reaches limit (annotation_video_map s))
    as [Hlim Hend].
  set (n := processed limit (length (annotation_video_map s))) in *.
  rewrite <- (take_drop n (annotation_video_map s)) at 1.
  assert (Hn : length (take n (annotation_video_map s)) = n).
  { rewrite length_take. subst n. unfold processed.
    destruct limit as [l|]; [case_decide|]; lia. }
  rewrite (process_items_prefix b limit _ segs); [| |exact Hall|exact Hw].
  - rewrite Hn. apply process_items_stop. exact Hend.
  - rewrite Hn. exact Hlim.
Qed.

(** X19.  [generate_dataset_from_map] walks the annotation/video map in
    insertion order and stops at [limit]: when the collaborators return
    for them, it processes the first [limit] items (all of them when
    [limit] is [None], negative or larger than the map), merges their
    segmented data in turn, and returns the resulting [merged_data], which
    is also what the service keeps.  Without [write_to_file] nothing is
    written. *)
Theorem generate_merges_first_limit_items (limit : option Z) (s : t)
    (w : world) (segs : list (odict (list Clip))) :
  Forall2 (fun item seg => segment_item s item = Done seg)
    (take (processed limit (length (annotation_video_map s)))
       (annotation_video_map s))
    segs ->
  generate_dataset_from_map limit false s w
  = (with_merged_data (merge_all (merged_data s) segs) s, w,
     Done (merge_all (merged_data s) segs)).
Proof.
  intros Hall. apply (generate_run false limit s w segs Hall). discriminate.
Qed.

(** X20.  With [write_to_file], the whole merged data is written again
    after every item: when the collaborators return and every write goes
    through, a run over [n] items writes [n] files into
    [output_data_path], the [i]-th holding what was merged up to item [i]
    and named after the [i]-th reading of the clock. *)
Theorem generate_writes_after_every_item (limit : option Z) (s : t)
    (w : world) (segs : list (odict (list Clip))) :
  Forall2 (fun item seg => segment_item s item = Done seg)
    (take (processed limit (length (annotation_video_map s)))
       (annotation_video_map s))
    segs ->
  (forall now m, prepare_output (output_data_path s) m = true
                 /\ write_json (output_data_path s) now m = true) ->
  generate_dataset_from_map limit true s w
  = (with_merged_data (merge_all (merged_data s) segs) s,
     mkWorld
       (written w
        ++ imap (fun i _ =>
                   (output_data_path s, time_ns_at (clock w + i),
                    merge_all (merged_data s) (take (S i) segs)))
                segs)
       (clock w + length segs),
     Done (merge_all (merged_data s) segs)).
Proof.
  intros Hall Hw. apply (generate_run true limit s w segs Hall).
  intros _. exact Hw.
Qed.

(** X21.  A limit of zero processes nothing: the call returns the merged
    data as it is and touches neither the collaborators nor the files. *)
Theorem generate_with_zero_limit (write_to_file : bool) (s : t) (w : world) :
  generate_dataset_from_map (Some 0%Z) write_to_file s w
  = (s, w, Done (merged_data s)).
Proof.
  apply process_items_stop. right. reflexivity.
Qed.

(** X22.  A negative limit is no limit: the counter starts at zero and
    only grows, so it never equals the limit and the call behaves as with
    [limit=None]. *)
Theorem generate_with_negative_limit (l : Z) (write_to_file : bool) (s : t)
    (w : world) :
  (l < 0)%Z ->
  generate_dataset_from_map (Some l) write_to_file s w
  = generate_dataset_from_map None write_to_file s w.
Proof.
  intros Hl. unfold generate_dataset_from_map.
  assert (Hgen : forall items c s w, (0 <= c)%Z ->
            process_items (Some l) write_to_file c items s w
            = process_items None write_to_file c items s w).
  { induction items as [|[annotation video] items IH]; intros c s0 w0 Hc;
      [reflexivity|].
    cbn [process_items].
    rewrite decide_False by (intros [= Heq]; lia).
    rewrite decide_False by discriminate.
    destruct (load_annotation annotation); [|reflexivity].
    destruct (process_video _ _ _); [|reflexivity].
    destruct (segment_video_data_with_annotations _ _); [|reflexivity].
    destruct write_to_file.
    - destruct (write_merged_data_to_file _ _) as [w1 [ok|e]];
        [|reflexivity].
      apply IH. lia.
    - apply IH. lia. }
  apply Hgen. lia.
Qed.

(** X23.  An item whose collaborators raise ends the run, with or without
    [write_to_file]: the service keeps what the items before it merged,
    the files written for those items (one each when [write_to_file] is
    set and the writes went through) stay and none is added, and the call
    raises the service's own error when the video data service or the
    annotation transformer raised theirs, and the exception as it is
    otherwise. *)
Theorem generate_fails_at_first_failing_item (limit : option Z)
    (write_to_file : bool) (s : t)
    (w : world) (pre post : odict string) (item : string * string)
    (segs : list (odict (list Clip))) (e : raised) :
  annotation_video_map s = pre ++ item :: post ->
  length pre < processed limit (length (annotation_video_map s)) ->
  Forall2 (fun item seg => segment_item s item = Done seg) pre segs ->
  (write_to_file = true ->
   forall now m, prepare_output (output_data_path s) m = true
                 /\ write_json (output_data_path s) now m = true) ->
  segment_item s item = Failed e ->
  generate_dataset_from_map limit write_to_file s w
  = (with_merged_data (merge_all (merged_data s) segs) s,
     (if write_to_file
      then mkWorld
             (written w
              ++ imap (fun i _ =>
                         (output_data_path s, time_ns_at (clock w + i),
                          merge_all (merged_data s) (take (S i) segs)))
                      segs)
             (clock w + length segs)
      else w),
     Failed (convert e)).
Proof.
  intros Hmap Hlt Hall Hw Hfail. unfold generate_dataset_from_map.
  destruct (processed_reaches limit (annotation_video_map s)) as [Hlim _].
  rewrite Hmap.
  rewrite (process_items_prefix write_to_file limit pre segs);
    [| intros i Hi; apply Hlim; lia | exact Hall | exact Hw].
  destruct item as [annotation video]. cbn [process_items].
  rewrite decide_False by (apply Hlim; lia).
  unfold segment_item in Hfail. cbn [fst snd] in Hfail.
  replace (output_keypoints_path
             (with_merged_data (merge_all (merged_data s) segs) s))
    with (output_keypoints_path s) by reflexivity.
  destruct (load_annotation annotation) as [annotation_data|e1].
  - destruct (process_video _ _ _) as [video_data|e2].
    + rewrite Hfail. reflexivity.
    + congruence.
  - congruence.
Qed.

(** X24.  Asking for the dataset before the map was created gives the
    empty dataset: a new service has an empty annotation/video map, so the
    loop has nothing to process, whatever the limit. *)
Theorem generate_on_new_service_is_empty (limit : option Z)
    (write_to_file : bool) (w : world)
    (annotations_directory video_directory output_data_path
       output_keypoints_path : string) :
  generate_dataset_from_map limit write_to_file
    (init annotations_directory video_directory output_data_path
       output_keypoints_path) w
  = (init annotations_directory video_directory output_data_path
       output_keypoints_path, w, Done ∅).
Proof. reflexivity. Qed.

(** X25.  A write that fails ends the run after the merge: the first item
    is merged into [merged_data], no file is added, and the call raises
    the error of [write_merged_data_to_file] unchanged, whether it was the
    directory, the serialisation or the file that failed. *)
Theorem generate_write_failure_keeps_merge (limit : option Z) (s : t)
    (w : world) (item : string * string) (rest : odict string)
    (seg : odict (list Clip)) :
  annotation_video_map s = item :: rest ->
  limit <> Some 0%Z ->
  segment_item s item = Done seg ->
  prepare_output (output_data_path s)
    (merged_data (merge_segmented_data seg s)) = false
  \/ write_json (output_data_path s) (time_ns_at (clock w))
       (merged_data (merge_segmented_data seg s)) = false ->
  exists w1,
    written w1 = written w
    /\ generate_dataset_from_map limit true s w
       = (merge_segmented_data seg s, w1,
          Failed (VideoDataDataloopMergeServiceError
                    "Error outputting JSON for merged data.")).
Proof.
  intros Hmap Hlimit Hseg Hwrite. unfold generate_dataset_from_map.
  rewrite Hmap. destruct item as [annotation video]. cbn [process_items].
  rewrite decide_False by congruence.
  unfold segment_item in Hseg. cbn [fst snd] in Hseg.
  destruct (load_annotation annotation) as [annotation_data|];
    [|discriminate].
  destruct (process_video _ _ _) as [video_data|]; [|discriminate].
  rewrite Hseg. unfold write_merged_data_to_file.
  replace (output_data_path (merge_segmented_data seg s))
    with (output_data_path s) by reflexivity.
  destruct (prepare_output _ _) eqn:Hprepare.
  - destruct Hwrite as [Hwrite|Hwrite]; [discriminate|].
    cbn zeta. rewrite Hwrite. eexists. split; [|reflexivity]. reflexivity.
  - eexists. split; [|reflexivity]. reflexivity.
Qed.

(** *** [create_video_annotation_map] *)

Lemma match_videos_step (a f v : string) (videos : list string) (s : t) :
  match_videos a f (videos ++ [v]) s
  = let s1 := match_videos a f videos s in
    if contains f v
    then with_maps (od_set a v (annotation_video_map s1))
                   (od_set v a (video_annotation_map s1)) s1
    else s1.
Proof. unfold match_videos. rewrite foldl_app. reflexivity. Qed.

Lemma filter_single (p : string -> bool) (v : string) :
  filter (fun v => p v) [v] = if p v then [v] else [].
Proof.
  rewrite filter_cons, filter_nil. destruct (p v); reflexivity.
Qed.

Lemma match_videos_annotation (a f : string) (videos : list string) (s : t)
    (x : string) :
  od_get x (annotation_video_map (match_videos a f videos s))
  = if decide (x = a)
    then match last (filter (fun v => contains f v) videos) with
         | Some v => Some v
         | None => od_get x (annotation_video_map s)
         end
    else od_get x (annotation_video_map s).
Proof.
  induction videos as [|v videos IH] using rev_ind.
  - simpl. case_decide; reflexivity.
  - rewrite match_videos_step. cbn zeta. rewrite filter_app.
    rewrite (filter_single (fun v => contains f v)).
    destruct (contains f v) eqn:Hc.
    + rewrite last_snoc.
      cbn [annotation_video_map with_maps]. rewrite od_get_set.
      destruct (decide (x = a)); [reflexivity | exact IH].
    + rewrite app_nil_r. exact IH.
Qed.

Lemma match_videos_video (a f : string) (videos : list string) (s : t)
    (x : string) :
  od_get x (video_annotation_map (match_videos a f videos s))
  = if decide (x ∈ videos /\ contains f x)
    then Some a
    else od_get x (video_annotation_map s).
Proof.
  induction videos as [|v videos IH] using rev_ind.
  - unfold match_videos. cbn [foldl].
    destruct (decide _) as [[Hin _]|]; [inversion Hin | reflexivity].
  - rewrite match_videos_step. cbn zeta.
    destruct (contains f v) eqn:Hc.
    + cbn [video_annotation_map with_maps]. rewrite od_get_set, IH.
      destruct (decide (x = v)) as [->|Hne].
      * rewrite decide_True; [reflexivity|].
        split; [apply elem_of_app; right; left | rewrite Hc; exact I].
      * apply decide_ext.
        rewrite elem_of_app, list_elem_of_singleton. tauto.
    + rewrite IH. apply decide_ext.
      rewrite elem_of_app, list_elem_of_singleton.
      split; [tauto|]. intros [[Hin | ->] Hx]; [tauto|].
      rewrite Hc in Hx. destruct Hx.
Qed.

Lemma match_videos_rest (a f : string) (videos : list string) (s : t) :
  merged_data (match_videos a f videos s) = merged_data s
  /\ annotations_directory (match_videos a f videos s)
     = annotations_directory s
  /\ video_directory (match_videos a f videos s) = video_directory s.
Proof.
  induction videos as [|v videos IH] using rev_ind; [done|].
  rewrite match_videos_step. cbn zeta.
  destruct (contains f v); [|exact IH]. exact IH.
Qed.

Lemma map_annotations_app (pre post videos : list string) (s : t) :
  Forall (fun a => is_Some (source_stem a)) pre ->
  exists s1,
    map_annotations pre videos s = (s1, Done true)
    /\ map_annotations (pre ++ post) videos s
       = map_annotations post videos s1.
Proof.
  revert s. induction pre as [|a pre IH]; intros s Hall.
  - exists s. split; reflexivity.
  - apply Forall_cons in Hall as [[f Hf] Hall]. simpl. rewrite Hf.
    apply IH, Hall.
Qed.

(** The stem recorded in an annotation file is contained in a video
    path. *)
Lemma map_annotations_lookup (annotations videos : list string) (s : t) :
  Forall (fun a => is_Some (source_stem a)) annotations ->
  exists s',
    map_annotations annotations videos s = (s', Done true)
    /\ merged_data s' = merged_data s
    /\ (forall a,
          od_get a (annotation_video_map s')
          = match source_stem a with
            | Some f =>
                if decide (a ∈ annotations)
                then match last (filter (fun v => contains f v) videos) with
                     | Some v => Some v
                     | None => od_get a (annotation_video_map s)
                     end
                else od_get a (annotation_video_map s)
            | None => od_get a (annotation_video_map s)
            end)
    /\ (forall v,
          od_get v (video_annotation_map s')
          = if decide (v ∈ videos)
            then match last (filter
                               (fun a => matches v a) annotations) with
                 | Some a => Some a
                 | None => od_get v (video_annotation_map s)
                 end
            else od_get v (video_annotation_map s)).
Proof.
  induction annotations as [|a annotations IH] using rev_ind; intros Hall.
  - exists s. split; [reflexivity|]. split; [reflexivity|]. split.
    + intros a. destruct (source_stem a); [|reflexivity].
      rewrite decide_False by apply not_elem_of_nil. reflexivity.
    + intros v. simpl. case_decide; reflexivity.
  - apply Forall_app in Hall as [Hall Ha].
    apply Forall_singleton in Ha as [f Hf].
    destruct (IH Hall) as (s1 & Hrun & Hmerged & Hann & Hvid).
    destruct (map_annotations_app annotations [a] videos s Hall)
      as (s1' & Hrun' & Happ).
    rewrite Hrun in Hrun'. injection Hrun' as <-.
    exists (match_videos a f videos s1).
    split; [rewrite Happ; simpl; rewrite Hf; reflexivity|].
    split; [rewrite (proj1 (match_videos_rest a f videos s1)); exact Hmerged|].
    split.
    + intros x. rewrite match_videos_annotation, Hann.
      destruct (decide (x = a)) as [->|Hne].
      * rewrite Hf. rewrite (decide_True (P := a ∈ annotations ++ [a]))
          by (apply elem_of_app; right; left).
        destruct (last (filter (fun v => contains f v) videos));
          [reflexivity|].
        case_decide; reflexivity.
      * destruct (source_stem x); [|reflexivity].
        apply decide_ext.
        rewrite elem_of_app, list_elem_of_singleton. tauto.
    + intros v. rewrite match_videos_video, Hvid.
      rewrite filter_app.
      rewrite (filter_single (fun a => matches v a)).
      replace (matches v a) with (contains f v)
        by (unfold matches; rewrite Hf; reflexivity).
      destruct (decide (v ∈ videos)) as [Hin|Hnotin].
      * destruct (contains f v) eqn:Hc.
        -- rewrite decide_True by (split; [exact Hin | exact I]).
           rewrite last_snoc. reflexivity.
        -- rewrite decide_False by tauto.
           rewrite app_nil_r. reflexivity.
      * rewrite decide_False by tauto. reflexivity.
Qed.

(** X26.  [create_video_annotation_map] pairs every annotation file with
    the videos whose path contains the stem of the file name the
    annotation records.  When every annotation file can be read, the call
    returns [True]; an annotation matched by several videos is mapped to
    the last of them, one matched by none keeps the entry it had, and the
    merged data is not touched. *)
Theorem create_maps_annotation_to_last_matching_video (s : t) :
  Forall (fun a => is_Some (source_stem a))
    (glob_json (annotations_directory s)) ->
  exists s',
    create_video_annotation_map s = (s', Done true)
    /\ merged_data s' = merged_data s
    /\ forall a f,
         a ∈ glob_json (annotations_directory s) ->
         source_stem a = Some f ->
         od_get a (annotation_video_map s')
         = match last (filter (fun v => contains f v)
                         (glob_webm (video_directory s))) with
           | Some v => Some v
           | None => od_get a (annotation_video_map s)
           end.
Proof.
  intros Hall.
  destruct (map_annotations_lookup _ (glob_webm (video_directory s)) s Hall)
    as (s' & Hrun & Hmerged & Hann & _).
  exists s'. split; [exact Hrun|]. split; [exact Hmerged|].
  intros a f Hin Hf. rewrite Hann, Hf.
  rewrite decide_True by exact Hin. reflexivity.
Qed.

(** X27.  The two maps are not inverse to each other: a video is mapped to
    the last annotation file whose recorded stem its path contains, so of
    several annotations that match one video only the last is kept in
    [video_annotation_map]; a path that is not among the videos keeps its
    entry. *)
Theorem create_maps_video_to_last_matching_annotation (s : t) :
  Forall (fun a => is_Some (source_stem a))
    (glob_json (annotations_directory s)) ->
  exists s',
    create_video_annotation_map s = (s', Done true)
    /\ forall v,
         od_get v (video_annotation_map s')
         = if decide (v ∈ glob_webm (video_directory s))
           then match last (filter (fun a => matches v a)
                              (glob_json (annotations_directory s))) with
                | Some a => Some a
                | None => od_get v (video_annotation_map s)
                end
           else od_get v (video_annotation_map s).
Proof.
  intros Hall.
  destruct (map_annotations_lookup _ (glob_webm (video_directory s)) s Hall)
    as (s' & Hrun & _ & _ & Hvid).
  exists s'. split; [exact Hrun | exact Hvid].
Qed.

(** X28.  An annotation file that cannot be read ends the call with the
    service's error, whatever was raised; the entries made for the
    annotation files before it stay in the maps. *)
Theorem create_fails_at_unreadable_annotation (s : t)
    (pre post : list string) (a : string) :
  glob_json (annotations_directory s) = pre ++ a :: post ->
  Forall (fun a => is_Some (source_stem a)) pre ->
  source_stem a = None ->
  exists s1,
    map_annotations pre (glob_webm (video_directory s)) s = (s1, Done true)
    /\ create_video_annotation_map s
       = (s1, Failed (VideoDataDataloopMergeServiceError
                        "There was an error creating the annotation video map")).
Proof.
  intros Hglob Hall Ha. unfold create_video_annotation_map. rewrite Hglob.
  destruct (map_annotations_app pre (a :: post)
              (glob_webm (video_directory s)) s Hall)
    as (s1 & Hrun & Happ).
  exists s1. split; [exact Hrun|]. rewrite Happ. simpl. rewrite Ha.
  reflexivity.
Qed.

(** The substring test is the one of Python's [in]: [contains needle hay]
    holds exactly when [hay] is some text, [needle], and some more text. *)
Lemma append_cons (c : Ascii.ascii) (s1 s2 : string) :
  String.append (String c s1) s2 = String c (String.append s1 s2).
Proof. reflexivity. Qed.

Lemma append_nil (s : string) : String.append EmptyString s = s.
Proof. reflexivity. Qed.

Lemma prefix_spec (needle hay : string) :
  String.prefix needle hay = true
  <-> exists after, hay = String.append needle after.
Proof.
  revert hay. induction needle as [|c needle IH]; intros hay.
  - split; [intros _; exists hay; reflexivity | destruct hay; reflexivity].
  - destruct hay as [|c' hay]; simpl.
    + split; [discriminate | intros [after Heq]; discriminate].
    + destruct (Ascii.ascii_dec c c') as [->|Hne].
      * rewrite IH.
        split; intros [after Heq]; exists after;
          rewrite append_cons in *; congruence.
      * split; [discriminate|].
        intros [after Heq]. rewrite append_cons in Heq. congruence.
Qed.

Lemma contains_spec (needle hay : string) :
  contains needle hay = true
  <-> exists before after,
        hay = String.append before (String.append needle after).
Proof.
  induction hay as [|c hay IH]; cbn [contains].
  - rewrite orb_false_r, prefix_spec. split.
    + intros [after Heq]. exists EmptyString, after. exact Heq.
    + intros (before & after & Heq). destruct before; [|discriminate].
      exists after. exact Heq.
  - rewrite orb_true_iff, prefix_spec, IH. split.
    + intros [[after Heq] | (before & after & Heq)].
      * exists EmptyString, after. exact Heq.
      * exists (String c before), after. rewrite append_cons. congruence.
    + intros (before & after & Heq). destruct before as [|c' before].
      * left. exists after. exact Heq.
      * right. exists before, after. rewrite append_cons in Heq. congruence.
Qed.

End MergeServiceFacts.

(** ** The properties on the concrete deployment *)

Section OnTheExample.

Import Example.
#[local] Existing Instance demo.

Lemma wf_new_client_1 pf : wf (new_client 1 pf).
Proof.
  split; vm_compute; [discriminate | reflexivity | lia].
Defined.

Lemma wf_new_client_2 : wf (new_client 2 None).
Proof.
  split; vm_compute; [discriminate | reflexivity | lia].
Defined.

Lemma frame_window_is_sliding_witness :
  let c := new_client 2 None in
  let obs3 := [obs 1; obs 2; obs 3] in
  window (obj (offer_all obs3 (mkSt c 0)))
  = [frame_data [2%Z]; frame_data [3%Z]].
Proof.
  intros c obs3.
  assert (Hall : Forall2 (valid c) obs3
                   [frame_data [1%Z]; frame_data [2%Z]; frame_data [3%Z]]).
  { subst obs3.
    repeat (apply List.Forall2_cons;
            [do 4 eexists; repeat split; reflexivity |]).
    apply List.Forall2_nil. }
  destruct (frame_window_is_sliding c 0 obs3 _ wf_new_client_2 Hall)
    as (_ & _ & Hlast).
  rewrite Hlast; [reflexivity | vm_compute; lia].
Defined.

Lemma empty_observation_is_dropped_witness :
  let s := after_first (Some says_squat) in
  let r := update_frame_data_from_js_client_keypoints obs_empty s in
  out r = Returns (frames (obj s)) /\
  final r = s /\
  trace r = [] /\
  window (obj (final (run_keypoint_pipeline obs_empty s))) = window (obj s).
Proof.
  apply (empty_observation_is_dropped (H := demo)). right. reflexivity.
Defined.

Lemma unbound_session_reports_no_model_witness :
  emitted (trace (@handle_keypoints demo MLFlowClient _ (obs 1)
                    (mkSt PoserApp_init 0)))
  = [("frame_result", ErrorResult "No model set")].
Proof.
  destruct (@unbound_session_reports_no_model demo MLFlowClient _ (obs 1)
              (mkSt PoserApp_init 0) eq_refl) as (_ & Hem & _).
  exact Hem.
Defined.

Lemma dropped_observation_reclassifies_full_window_witness :
  let s := after_first (Some says_squat) in
  let r := run_keypoint_pipeline obs_missing s in
  stage_ran (trace r) /\ assembled (trace r) = [window (obj s)].
Proof.
  destruct (dropped_observation_reclassifies_full_window (H := demo) obs_missing
              (after_first (Some says_squat)))
    as (_ & Hran & Hwin & _).
  - left. reflexivity.
  - vm_compute. reflexivity.
  - split; [exact Hran | exact Hwin].
Defined.

Lemma classification_is_never_reset_witness :
  exists b',
    current_classification
      (obj (invoke_all
              three_calls
              (after_first (Some says_squat))))
    = Some b'.
Proof.
  destruct (classification_is_never_reset (H := demo)
              three_calls
              (after_first (Some says_squat)) true eq_refl)
    as (Hset & _).
  exact Hset.
Defined.

Lemma classification_is_truth_value_of_label_witness :
  current_classification
    (obj (final (run_keypoint_pipeline (obs 1)
                   (mkSt (new_client 1 (Some says_squat)) 0))))
  = Some true.
Proof.
  destruct (classification_is_truth_value_of_label (H := demo) (obs 1)
              (mkSt (new_client 1 (Some says_squat)) 0)
              says_squat [1%Z] (PyStr "squat") eq_refl eq_refl eq_refl)
    as (Hcc & _).
  exact Hcc.
Defined.

Lemma predict_failure_propagates_witness :
  let h := handle_keypoints (obs 1) (app_with (new_client 1 (Some fails))) in
  out h = Raises (RuntimeError "boom") /\
  actuations (trace h) = [] /\
  emitted (trace h) = [].
Proof.
  destruct (predict_failure_propagates (H := demo) (obs 1)
              (app_with (new_client 1 (Some fails)))
              (new_client 1 (Some fails)) fails [1%Z] (RuntimeError "boom")
              eq_refl eq_refl eq_refl eq_refl)
    as (_ & Hout & Hact & Hem & _).
  split; [exact Hout | split; [exact Hact | exact Hem]].
Defined.

(** The claim C2 as the spec words it fails on the code: a prediction
    function that raises makes the pipeline step and the handler end with
    that exception, not with a value signalling the failure. *)
Lemma predict_failure_counterexample :
  let s := mkSt (new_client 1 (Some fails)) 0 in
  let r := run_keypoint_pipeline (obs 1) s in
  predicted (trace r) = [[1%Z]] /\
  out r = Raises (RuntimeError "boom") /\
  out (handle_keypoints (obs 1) (app_with (new_client 1 (Some fails))))
  = Raises (RuntimeError "boom") /\
  ~ (exists v, out r = Returns v).
Proof.
  cbn zeta.
  assert (Hout : out (run_keypoint_pipeline (obs 1)
                        (mkSt (new_client 1 (Some fails)) 0))
                 = Raises (RuntimeError "boom"))
    by (vm_compute; reflexivity).
  repeat split; try (vm_compute; reflexivity).
  intros [v Hv]. rewrite Hout in Hv. discriminate.
Qed.

(** *** Further properties on the concrete deployment *)

Lemma window_is_last_frames_of_any_stream_witness :
  window (obj (offer_all mixed_stream (mkSt (new_client 1 None) 0)))
  = [frame_data [2%Z]].
Proof.
  destruct (window_is_last_frames_of_any_stream (H := demo)
              (new_client 1 None) 0 mixed_stream (wf_new_client_1 None))
    as (_ & Hwindow).
  rewrite Hwindow. vm_compute. reflexivity.
Defined.

Lemma normalisation_failure_leaves_client_witness :
  let s := mkSt (partial_client 1 None) 0 in
  let r := run_keypoint_pipeline (obs 1) s in
  out r = Raises (AttributeError "serialize_pose_landmarks") /\
  final r = s /\ trace r = [].
Proof.
  destruct (normalisation_failure_leaves_client (H := demo) (obs 1)
              (mkSt (partial_client 1 None) 0) [1%Z] [] eq_refl)
    as (Hnone & _).
  destruct (Hnone eq_refl) as (_ & Hout & Hfinal & Htrace).
  split; [exact Hout | split; [exact Hfinal | exact Htrace]].
Defined.

Lemma missing_transformer_raises_on_full_window_witness :
  let s := mkSt (partial_client 1 (Some demo_mpc)) 0 in
  let r := run_keypoint_pipeline (obs 1) s in
  out r = Raises (AttributeError "transform") /\
  transformed (trace r) = [] /\
  window (obj (final r)) = [frame_data [1%Z]].
Proof.
  destruct (missing_transformer_raises_on_full_window (H := demo) (obs 1)
              (mkSt (partial_client 1 (Some demo_mpc)) 0) eq_refl eq_refl)
    as (_ & Htransformed & _ & Hframes & _ & Hout).
  split; [|split].
  - eapply Hout; reflexivity.
  - exact Htransformed.
  - unfold window. rewrite Hframes. reflexivity.
Defined.

Lemma zero_capacity_always_classifies_nothing_witness :
  let r := run_keypoint_pipeline (obs 1)
             (mkSt (new_client 0 (Some says_squat)) 0) in
  window (obj (final r)) = [] /\ assembled (trace r) = [[]].
Proof.
  assert (Hwf : wf (new_client 0 (Some says_squat)))
    by (split; vm_compute; [discriminate | reflexivity | lia]).
  destruct (zero_capacity_always_classifies_nothing (H := demo) (obs 1)
              (mkSt (new_client 0 (Some says_squat)) 0) Hwf eq_refl)
    as (_ & Hwindow & Hassembled).
  split; [exact Hwindow |].
  apply Hassembled. eexists. reflexivity.
Defined.

Lemma mlflow_client_handler_is_silent_witness :
  let h := handle_keypoints (obs 1)
             (app_with (new_client 1 (Some says_squat))) in
  emitted (trace h) = [] /\ actuations (trace h) = [] /\
  out h = Returns tt.
Proof.
  destruct (mlflow_client_handler_is_silent (H := demo) (obs 1)
              (app_with (new_client 1 (Some says_squat)))
              (new_client 1 (Some says_squat)) eq_refl)
    as (_ & Hemitted & Hactuations & _ & Hreturns & _).
  split; [exact Hemitted | split; [exact Hactuations |]].
  apply (Hreturns PyNone). reflexivity.
Defined.

Lemma handler_adds_nothing_without_result_witness :
  let h := @handle_keypoints demo reporting_client reporting_KeypointClient
             obs_empty (reporting_app (Some demo_device)) in
  out h = Returns tt /\ emitted (trace h) = [] /\ actuations (trace h) = [].
Proof.
  destruct (@handler_adds_nothing_without_result demo reporting_client
              reporting_KeypointClient obs_empty
              (reporting_app (Some demo_device))
              (Reporting (new_client 1 (Some says_squat))) eq_refl)
    as (_ & Hquiet).
  destruct (Hquiet (PyBool true) eq_refl (or_intror eq_refl))
    as (Hout & Htrace & _).
  split; [exact Hout |]. rewrite Htrace. split; reflexivity.
Defined.

Lemma handler_fails_before_actuation_witness :
  let h := @handle_keypoints demo reporting_client reporting_KeypointClient
             (obs 1) (reporting_app None) in
  out h = Raises (AttributeError "actuator") /\
  actuations (trace h) = [] /\ emitted (trace h) = [].
Proof.
  destruct (@handler_fails_before_actuation demo reporting_client
              reporting_KeypointClient (obs 1) (reporting_app None)
              (Reporting (new_client 1 (Some says_squat))) (PyBool true)
              eq_refl eq_refl eq_refl ltac:(vm_compute; discriminate))
    as (_ & Hnone).
  destruct (Hnone 50%Z eq_refl eq_refl) as (Hout & Htrace).
  split; [exact Hout |]. rewrite Htrace. split; reflexivity.
Defined.

Lemma no_event_without_acknowledgement_witness :
  let h := @handle_keypoints demo reporting_client reporting_KeypointClient
             (obs 1) (reporting_app (Some broken_device)) in
  out h = Raises (RuntimeError "not connected") /\
  actuations (trace h) = [Call_send "a"] /\ emitted (trace h) = [].
Proof.
  destruct (@no_event_without_acknowledgement demo reporting_client
              reporting_KeypointClient (obs 1)
              (reporting_app (Some broken_device))
              (Reporting (new_client 1 (Some says_squat))) (PyBool true)
              broken_device 50%Z
              eq_refl eq_refl eq_refl eq_refl
              ltac:(vm_compute; discriminate) eq_refl)
    as (Hsend & _).
  destruct (Hsend (RuntimeError "not connected") eq_refl) as (Hout & Htrace).
  split; [exact Hout |]. rewrite Htrace. split; reflexivity.
Defined.

Lemma fresh_client_fills_after_capacity_frames_witness :
  full (obj (offer_all mixed_stream (mkSt (new_client 2 None) 0))).
Proof.
  destruct (fresh_client_fills_after_capacity_frames (H := demo)
              2 (Some demo_mpc) None (Some demo_transformer) None
              default_input_example (new_client 2 None) 0 mixed_stream
              eq_refl)
    as (_ & Hfull).
  apply Hfull. vm_compute. lia.
Defined.

Lemma set_model_outcomes_witness :
  let r := set_model (RC := demo_route (Returns demo_device)) squat_request
             fresh_server in
  out r = Returns (Result_response
                     "Server Ready: classifier set to squat.pickle.") /\
  actuator (pc (final r)) = Some demo_device /\
  (exists client,
     poser_client (pc (final r)) = Some client /\ frame_window client = 10%Z).
Proof.
  destruct (set_model_outcomes (RC := demo_route (Returns demo_device))
              squat_request fresh_server)
    as (_ & _ & _ & Hready).
  destruct (Hready "squat.pickle"
              "./data/trained_models/squat.pickle" tt tt demo_transformer tt
              _ demo_device eq_refl eq_refl eq_refl eq_refl eq_refl eq_refl
              eq_refl)
    as (Hout & Hclient & Hdevice & _).
  split; [exact Hout | split; [exact Hdevice |]].
  eexists. split; [exact Hclient | reflexivity].
Defined.

Lemma set_model_failing_actuator_keeps_new_client_witness :
  let r := set_model
             (RC := demo_route (Raises (RuntimeError "no adapter")))
             squat_request fresh_server in
  out r = Raises (RuntimeError "no adapter") /\
  actuator (pc (final r)) = None /\
  (exists client, poser_client (pc (final r)) = Some client).
Proof.
  destruct (set_model_failing_actuator_keeps_new_client
              (RC := demo_route (Raises (RuntimeError "no adapter")))
              squat_request fresh_server "squat.pickle"
              "./data/trained_models/squat.pickle" tt tt tt demo_transformer
              _ (RuntimeError "no adapter")
              eq_refl eq_refl eq_refl eq_refl eq_refl eq_refl eq_refl)
    as (Hout & Hclient & Hdevice & _).
  split; [exact Hout | split; [exact Hdevice |]].
  eexists. exact Hclient.
Defined.

(** *** The claims that needed amending, on the concrete deployment *)

(** C1. A session with an [MLFlowClient] of capacity 1 whose prediction
    function answers "squat", the actuator set, and one valid
    observation: the window is full, the prediction function is called
    and returns the label, the classification kept is [True], and yet
    the handler returns without any actuator call and without emitting
    any event, since the pipeline step hands back [None]. *)
Theorem classification_event_missing :
  let c := new_client 1 (Some says_squat) in
  let h := handle_keypoints (obs 1) (app_with c) in
  full (obj (final (update_frame_data_from_js_client_keypoints (obs 1)
                      (pipeline_entry (app_with c) c)))) /\
  predicted (trace h) = [[1%Z]] /\
  says_squat [1%Z] = Returns (PyStr "squat") /\
  out (run_keypoint_pipeline (obs 1) (pipeline_entry (app_with c) c))
  = Returns PyNone /\
  out h = Returns tt /\
  (current_classification <$> poser_client (obj (final h)))
  = Some (Some true) /\
  actuations (trace h) = [] /\
  emitted (trace h) = [] /\
  ~ (exists cls ts pt fr ack,
       emitted (trace h)
       = [("frame_result", ClassificationResult cls ts pt fr ack)]).
Proof.
  cbn zeta.
  assert (Hem : emitted (trace (handle_keypoints (obs 1)
                  (app_with (new_client 1 (Some says_squat))))) = [])
    by (vm_compute; reflexivity).
  repeat split; try (vm_compute; reflexivity).
  intros (cls & ts & pt & fr & ack & Habs). rewrite Hem in Habs.
  discriminate.
Qed.

Lemma handler_emits_one_event_after_acknowledgement_witness :
  emitted
    (trace (@handle_keypoints demo reporting_client reporting_KeypointClient
              (obs 1) (reporting_app (Some demo_device))))
  = [("frame_result",
      ClassificationResult (PyBool true) (py_str 30000) 20%Z 50%Z "ok")].
Proof.
  destruct (@handler_emits_one_event_after_acknowledgement demo
              reporting_client reporting_KeypointClient (obs 1)
              (reporting_app (Some demo_device))
              (Reporting (new_client 1 (Some says_squat)))
              demo_device (PyBool true) 50%Z "ok"
              eq_refl eq_refl eq_refl eq_refl
              ltac:(vm_compute; discriminate)
              eq_refl eq_refl eq_refl)
    as (Htrace & _).
  rewrite Htrace. vm_compute. reflexivity.
Defined.

Lemma stage_runs_iff_window_full_witness :
  let h := handle_keypoints (obs 7)
             (app_with (new_client 1 (Some says_squat))) in
  stage_ran (trace h) /\
  trace h
  = [Call_serialize_pose_landmarks [7%Z];
     Call_generate_blaze_pose_frames ("sequence-" +:+ py_str 10000)
       [frame_data [7%Z]] false;
     Call_serialize [frame_data [7%Z]];
     Call_transform [7%Z] [];
     Call_predict_fn [7%Z]] /\
  (current_classification <$> poser_client (obj (final h)))
  = Some (Some true).
Proof.
  destruct (stage_runs_iff_window_full (H := demo) (obs 7)
              (app_with (new_client 1 (Some says_squat)))
              (new_client 1 (Some says_squat)) eq_refl)
    as (_ & Hreturned & Hone).
  destruct (Hone (frame_data (H := demo) [7%Z]) (wf_new_client_1 _) eq_refl)
    as ((fr & Hfr) & _ & Hfull).
  { do 4 eexists. repeat split; reflexivity. }
  destruct (Hreturned fr Hfr) as (Hiff & _ & Hpass).
  destruct (Hpass Hfull) as (_ & Hcalls).
  destruct (Hcalls [frame_data (H := demo) [7%Z]] [7%Z] demo_transformer
              ([7%Z], tt) says_squat (PyStr "squat")
              eq_refl eq_refl eq_refl eq_refl eq_refl eq_refl)
    as (Htrace & _ & Hcc).
  split; [apply Hiff; exact Hfull |].
  split; [rewrite Htrace; reflexivity | exact Hcc].
Defined.

(** The claim C5 as the spec words it fails on the code: the window of
    the client is full, an observation arrives whose pose cannot be
    normalised, the window is still full after it was offered, and the
    stage does not run: the handler ends with the exception of the
    normalisation. *)
Lemma stage_runs_iff_window_full_counterexample :
  let app := mkSt (mkPoserApp (Some picky_full) (Some demo_device)) 0 in
  let offered :=
    update_frame_data_from_js_client_keypoints obs_no_joints
      (pipeline_entry app picky_full) in
  let h := handle_keypoints obs_no_joints app in
  full (obj (final offered)) /\
  (window <$> poser_client (obj (final h))) = Some [frame_data [1%Z]] /\
  out h = Raises (ValueError "no joints") /\
  assembled (trace h) = [] /\
  ~ (stage_ran (trace h) <-> full (obj (final offered))).
Proof.
  cbn zeta.
  assert (Hfull : full (obj (final
            (update_frame_data_from_js_client_keypoints obs_no_joints
               (pipeline_entry
                  (mkSt (mkPoserApp (Some picky_full) (Some demo_device)) 0)
                  picky_full)))))
    by (vm_compute; reflexivity).
  split; [exact Hfull |].
  repeat split; try (vm_compute; reflexivity).
  intros [_ Hran]. specialize (Hran Hfull). vm_compute in Hran.
  discriminate.
Qed.

Lemma absent_predict_fn_short_circuits_witness :
  let r := run_keypoint_pipeline (obs 1) (mkSt (new_client 1 None) 0) in
  out r = Returns PyNone /\
  trace r
  = [Call_serialize_pose_landmarks [1%Z];
     Call_generate_blaze_pose_frames ("sequence-" +:+ py_str 0)
       [frame_data [1%Z]] false;
     Call_serialize [frame_data [1%Z]];
     Call_transform [1%Z] []] /\
  current_classification (obj (final r)) = None.
Proof.
  destruct (absent_predict_fn_short_circuits (H := demo) (obs 1)
              (mkSt (new_client 1 None) 0) eq_refl)
    as (_ & Hcc & _ & Hpass).
  destruct (Hpass _ [frame_data (H := demo) [1%Z]] [1%Z] demo_transformer
              ([1%Z], tt) eq_refl ltac:(vm_compute; reflexivity)
              eq_refl eq_refl eq_refl eq_refl)
    as (Hout & Htrace).
  split; [exact Hout |]. split; [rewrite Htrace; reflexivity | exact Hcc].
Defined.

(** The claim C7 as the spec words it fails on the code: with no
    prediction function configured, a full-window attempt of a client
    built without a transformer ends with the [AttributeError] of calling
    [transform] on [None], and one whose transformer raises ends with
    that exception; the test for the prediction function is not
    reached. *)
Lemma absent_predict_fn_counterexample :
  let s := mkSt (partial_client 1 (Some demo_mpc)) 0 in
  let r := run_keypoint_pipeline (obs 1) s in
  let s' := mkSt client_with_failing_transformer 0 in
  let r' := run_keypoint_pipeline (obs 1) s' in
  predict_fn (obj s) = None /\
  assembled (trace r) = [[frame_data [1%Z]]] /\
  out r = Raises (AttributeError "transform") /\
  predict_fn (obj s') = None /\
  assembled (trace r') = [[frame_data [1%Z]]] /\
  out r' = Raises (RuntimeError "bad columns") /\
  ~ (exists v, out r = Returns v) /\
  ~ (exists v, out r' = Returns v).
Proof.
  cbn zeta.
  assert (Hout : out (run_keypoint_pipeline (obs 1)
                        (mkSt (partial_client 1 (Some demo_mpc)) 0))
                 = Raises (AttributeError "transform"))
    by (vm_compute; reflexivity).
  assert (Hout' : out (run_keypoint_pipeline (obs 1)
                         (mkSt client_with_failing_transformer 0))
                  = Raises (RuntimeError "bad columns"))
    by (vm_compute; reflexivity).
  repeat split; try (vm_compute; reflexivity).
  - intros [v Hv]. rewrite Hout in Hv. discriminate.
  - intros [v Hv]. rewrite Hout' in Hv. discriminate.
Qed.

Lemma init_builds_empty_client_witness :
  MLFlowClient_init (2 ^ 63) (Some demo_mpc) None None None
    default_input_example
  = Raises (OverflowError "Python int too large to convert to C ssize_t") /\
  MLFlowClient_init (-1) (Some demo_mpc) None None None default_input_example
  = Raises (ValueError "maxlen must be non-negative") /\
  (exists c,
     MLFlowClient_init 25 (Some demo_mpc) None None None default_input_example
     = Returns c).
Proof.
  split; [| split].
  - apply (init_builds_empty_client (H := demo)). right. vm_compute.
    reflexivity.
  - reflexivity.
  - eexists. reflexivity.
Defined.

End OnTheExample.

(** ** The merge service on the small data set *)

Section MergeServiceOnTheExample.

Import Example merge_service.
#[local] Existing Instance demo_files.

Lemma merge_appends_per_label_witness :
  merged_data
    (merge_segmented_data [("squat", [1%Z; 2%Z]); ("lunge", [])]
       (with_merged_data {[ "squat" := [7%Z] ]} (service_at "annotations" "out")))
    !! "squat"
  = Some [7%Z; 1%Z; 2%Z].
Proof.
  assert (Hnd : NoDup [("squat", [1%Z; 2%Z]); ("lunge", @nil Z)].*1)
    by compute_done.
  destruct (merge_appends_per_label (H := demo_files)
              [("squat", [1%Z; 2%Z]); ("lunge", [])]
              (with_merged_data {[ "squat" := [7%Z] ]}
                 (service_at "annotations" "out"))
              "squat" Hnd)
    as (Hlookup & _).
  refine (eq_trans Hlookup _). reflexivity.
Defined.

Lemma merge_registers_empty_label_witness :
  merged_data
    (merge_segmented_data [("squat", [1%Z; 2%Z]); ("lunge", [])]
       (service_at "annotations" "out"))
    !! "lunge"
  = Some [].
Proof.
  assert (Hnd : NoDup [("squat", [1%Z; 2%Z]); ("lunge", @nil Z)].*1)
    by compute_done.
  assert (Hin : ("lunge", @nil Z)
                ∈ [("squat", [1%Z; 2%Z]); ("lunge", @nil Z)])
    by (right; left).
  refine (eq_trans
            (merge_registers_empty_label (H := demo_files)
               [("squat", [1%Z; 2%Z]); ("lunge", [])]
               (service_at "annotations" "out") "lunge" Hnd Hin) _).
  reflexivity.
Defined.

Lemma generate_merges_first_limit_items_witness :
  generate_dataset_from_map (Some 1%Z) false (mapped_at "out") no_files
  = (with_merged_data {[ "squat" := [18%Z] ]} (mapped_at "out"), no_files,
     Done {[ "squat" := [18%Z] ]}).
Proof.
  refine (eq_trans
            (generate_merges_first_limit_items (H := demo_files) (Some 1%Z)
               (mapped_at "out") no_files [[("squat", [18%Z])]] _) _).
  - apply List.Forall2_cons; [reflexivity | apply List.Forall2_nil].
  - reflexivity.
Defined.

Lemma generate_writes_after_every_item_witness :
  written
    (generate_dataset_from_map (Some 1%Z) true (mapped_at "out") no_files).1.2
  = [("out", 0%Z, {[ "squat" := [18%Z] ]})].
Proof.
  refine (eq_trans
            (f_equal (fun r => written r.1.2)
               (generate_writes_after_every_item (H := demo_files)
                  (Some 1%Z) (mapped_at "out") no_files
                  [[("squat", [18%Z])]] _ _)) _).
  - apply List.Forall2_cons; [reflexivity | apply List.Forall2_nil].
  - intros now m. split; reflexivity.
  - reflexivity.
Defined.

Lemma generate_with_negative_limit_witness :
  generate_dataset_from_map (Some (-1)%Z) false (mapped_at "out") no_files
  = generate_dataset_from_map None false (mapped_at "out") no_files.
Proof.
  apply (generate_with_negative_limit (H := demo_files)). lia.
Defined.

Lemma generate_fails_at_first_failing_item_witness :
  generate_dataset_from_map None true (mapped_at "out") no_files
  = (with_merged_data {[ "squat" := [18%Z] ]} (mapped_at "out"),
     mkWorld [("out", 0%Z, {[ "squat" := [18%Z] ]})] 1,
     Failed (VideoDataDataloopMergeServiceError
               "There was an error processing dataset due to the VideoDataService")).
Proof.
  refine (eq_trans
            (generate_fails_at_first_failing_item (H := demo_files) None
               true (mapped_at "out") no_files
               [("annotations/a1.json", "videos/squat_1_take2.webm")] []
               ("annotations/a2.json", "videos/lunge.webm")
               [[("squat", [18%Z])]] VideoDataServiceError
               eq_refl _ _ _ eq_refl) _).
  - vm_compute. lia.
  - apply List.Forall2_cons; [reflexivity | apply List.Forall2_nil].
  - intros _ now m. split; reflexivity.
  - reflexivity.
Defined.

Lemma generate_write_failure_keeps_merge_witness :
  exists w1,
    written w1 = [] /\
    generate_dataset_from_map None true (mapped_at "readonly") no_files
    = (with_merged_data {[ "squat" := [18%Z] ]} (mapped_at "readonly"), w1,
       Failed (VideoDataDataloopMergeServiceError
                 "Error outputting JSON for merged data.")).
Proof.
  destruct (generate_write_failure_keeps_merge (H := demo_files) None (mapped_at "readonly")
              no_files
              ("annotations/a1.json", "videos/squat_1_take2.webm")
              [("annotations/a2.json", "videos/lunge.webm")]
              [("squat", [18%Z])]
              eq_refl ltac:(discriminate) eq_refl (or_introl eq_refl))
    as (w1 & Hwritten & Hrun).
  exists w1. split; [exact Hwritten | exact Hrun].
Defined.

Lemma create_maps_annotation_to_last_matching_video_witness :
  od_get "annotations/a1.json" (annotation_video_map (mapped_at "out"))
  = Some "videos/squat_1_take2.webm".
Proof.
  destruct (create_maps_annotation_to_last_matching_video (H := demo_files)
              (service_at "annotations" "out"))
    as (s' & Hrun & _ & Hlookup).
  - repeat (apply Forall_cons; split; [eexists; reflexivity |]).
    apply Forall_nil_2.
  - unfold mapped_at. rewrite Hrun. cbn [fst].
    refine (eq_trans (Hlookup "annotations/a1.json" "squat_1" _ eq_refl) _);
      [left | reflexivity].
Defined.

Lemma create_maps_video_to_last_matching_annotation_witness :
  od_get "videos/lunge.webm" (video_annotation_map (mapped_at "out"))
  = Some "annotations/a2.json".
Proof.
  destruct (create_maps_video_to_last_matching_annotation (H := demo_files)
              (service_at "annotations" "out"))
    as (s' & Hrun & Hlookup).
  - repeat (apply Forall_cons; split; [eexists; reflexivity |]).
    apply Forall_nil_2.
  - unfold mapped_at. rewrite Hrun. cbn [fst].
    refine (eq_trans (Hlookup "videos/lunge.webm") _). reflexivity.
Defined.

Lemma create_fails_at_unreadable_annotation_witness :
  exists s1,
    annotation_video_map s1
    = [("annotations/a1.json", "videos/squat_1_take2.webm")]
    /\ create_video_annotation_map (service_at "mixed" "out")
       = (s1, Failed (VideoDataDataloopMergeServiceError
                        "There was an error creating the annotation video map")).
Proof.
  destruct (create_fails_at_unreadable_annotation (H := demo_files)
              (service_at "mixed" "out")
              ["annotations/a1.json"] ["annotations/a2.json"]
              "mixed/broken.json" eq_refl)
    as (s1 & Hpre & Hrun).
  - apply Forall_cons; split; [eexists; reflexivity | apply Forall_nil_2].
  - reflexivity.
  - exists s1. split; [|exact Hrun].
    vm_compute in Hpre. injection Hpre as <-. reflexivity.
Defined.

End MergeServiceOnTheExample.
